(** * g_d3dmath.h : Direct3D-style vector, plane, matrix and viewport math

    A shallow embedding of the functions of [g_d3dmath.h] that the
    specification makes claims about, over IEEE-754 binary32 arithmetic.

    The C++ type [float] is modelled by [spec_float] at precision 24 and
    maximal exponent 128; every arithmetic operator of the source is one
    correctly rounded (round-to-nearest-even) operation, applied in the order
    in which C++ parses the expression (left to right for [+ -] and [*]).
    The functions of the C math library that the header calls but does not
    define ([cosf], [sinf], [tanf]) are parameters; [sqrtf] is the correctly
    rounded square root. *)

From Stdlib Require Import ZArith Bool List Lia.
From Stdlib Require Import Floats.SpecFloat.

Local Open Scope Z_scope.
Local Open Scope list_scope.

(** ** binary32 arithmetic *)

Definition prec : Z := 24.
Definition emax : Z := 128.

Definition float : Type := spec_float.

Declare Scope f32_scope.
Delimit Scope f32_scope with f32.
Bind Scope f32_scope with float.

Definition fadd : float -> float -> float := SFadd prec emax.
Definition fsub : float -> float -> float := SFsub prec emax.
Definition fmul : float -> float -> float := SFmul prec emax.
Definition fdiv : float -> float -> float := SFdiv prec emax.
Definition fneg : float -> float := SFopp.
Definition fabs : float -> float := SFabs.
Definition sqrtf : float -> float := SFsqrt prec emax.

(** C++ comparisons: every comparison with a NaN is false, except [!=]. *)
Definition feq (x y : float) : bool := SFeqb x y.
Definition fne (x y : float) : bool := negb (SFeqb x y).
Definition flt (x y : float) : bool := SFltb x y.
Definition fle (x y : float) : bool := SFleb x y.
Definition fgt (x y : float) : bool := SFltb y x.

Infix "+" := fadd : f32_scope.
Infix "-" := fsub : f32_scope.
Infix "*" := fmul : f32_scope.
Infix "/" := fdiv : f32_scope.
Notation "- x" := (fneg x) : f32_scope.
Infix "==" := feq (at level 70, no associativity) : f32_scope.
Infix "!=" := fne (at level 70, no associativity) : f32_scope.
Infix "<" := flt : f32_scope.
Infix "<=" := fle : f32_scope.
Infix ">" := fgt : f32_scope.

(** The values a C++ [float] object can hold. *)
Definition is_float (x : float) : bool := valid_binary prec emax x.

(** Conversion of an integer to [float], as in [(float)n]. *)
Definition float_of_Z (n : Z) : float := binary_normalize prec emax n 0 false.

(** The [float] nearest to the decimal literal [num / den]: the quotient of
    two exactly represented integers, rounded once. *)
Definition float_lit (num den : positive) : float :=
  SFdiv prec emax (S754_finite false num 0) (S754_finite false den 0).

Definition f0 : float := S754_zero false.        (* 0.0f *)
Definition f1 : float := float_of_Z 1.           (* 1.0f *)
Definition f2 : float := float_of_Z 2.           (* 2.0f *)
Definition H_PI : float := float_lit 157079633 100000000.   (* 1.57079633f *)

(** [a] is within [tol] of [b]: [|a - b| <= tol]; false as soon as a NaN
    occurs. *)
Definition approx (tol a b : float) : bool := fle (fabs (fsub a b)) tol.

(** ** Types *)

Record vector3_t := mkVector3 { v3x : float; v3y : float; v3z : float }.

Record vector4_t :=
  mkVector4 { v4x : float; v4y : float; v4z : float; v4w : float }.

Record plane_t :=
  mkPlane { pa : float; pb : float; pc : float; pd : float }.

(** [float n[16]] *)
Record matrix4_t := mkMatrix4 {
  n0  : float; n1  : float; n2  : float; n3  : float;
  n4  : float; n5  : float; n6  : float; n7  : float;
  n8  : float; n9  : float; n10 : float; n11 : float;
  n12 : float; n13 : float; n14 : float; n15 : float }.

(** The integer fields are [uint32_t]: values in [[0, 2^32)]. *)
Record viewport_t := mkViewport {
  vp_x : Z; vp_y : Z; vp_w : Z; vp_h : Z; minZ : float; maxZ : float }.

Definition uint32_add (a b : Z) : Z := (a + b) mod 2 ^ 32.

(** ** VECTOR4 *)

Definition Vector4 (x y z w : float) : vector4_t := mkVector4 x y z w.

(** Assignments [v.x = e], ..., [v.w = e]. *)
Definition set_v4x (v : vector4_t) (e : float) : vector4_t :=
  mkVector4 e v.(v4y) v.(v4z) v.(v4w).
Definition set_v4y (v : vector4_t) (e : float) : vector4_t :=
  mkVector4 v.(v4x) e v.(v4z) v.(v4w).
Definition set_v4z (v : vector4_t) (e : float) : vector4_t :=
  mkVector4 v.(v4x) v.(v4y) e v.(v4w).
Definition set_v4w (v : vector4_t) (e : float) : vector4_t :=
  mkVector4 v.(v4x) v.(v4y) v.(v4z) e.

Definition DotVector4 (a b : vector4_t) : float :=
  (a.(v4x) * b.(v4x) + a.(v4y) * b.(v4y) + a.(v4z) * b.(v4z)
   + a.(v4w) * b.(v4w))%f32.

Definition SubtractVector4 (a b : vector4_t) : vector4_t :=
  let v := Vector4 f0 f0 f0 f0 in
  let v := set_v4x v (a.(v4x) - b.(v4x))%f32 in
  let v := set_v4y v (a.(v4y) - b.(v4y))%f32 in
  let v := set_v4z v (a.(v4z) - b.(v4z))%f32 in
  let v := set_v4w v (a.(v4w) + b.(v4w))%f32 in
  v.

Definition TransformVector4 (v : vector4_t) (m : matrix4_t) : vector4_t :=
  mkVector4
    (v.(v4x) * m.(n0) + v.(v4y) * m.(n4) + v.(v4z) * m.(n8)
     + v.(v4w) * m.(n12))%f32
    (v.(v4x) * m.(n1) + v.(v4y) * m.(n5) + v.(v4z) * m.(n9)
     + v.(v4w) * m.(n13))%f32
    (v.(v4x) * m.(n2) + v.(v4y) * m.(n6) + v.(v4z) * m.(n10)
     + v.(v4w) * m.(n14))%f32
    (v.(v4x) * m.(n3) + v.(v4y) * m.(n7) + v.(v4z) * m.(n11)
     + v.(v4w) * m.(n15))%f32.

(** ** VECTOR3 *)

Definition Vector3 (x y z : float) : vector3_t := mkVector3 x y z.

Definition AddVector3 (a b : vector3_t) : vector3_t :=
  mkVector3 (a.(v3x) + b.(v3x))%f32 (a.(v3y) + b.(v3y))%f32
            (a.(v3z) + b.(v3z))%f32.

Definition DotVector3 (a b : vector3_t) : float :=
  (a.(v3x) * b.(v3x) + a.(v3y) * b.(v3y) + a.(v3z) * b.(v3z))%f32.

Definition LengthVector3 (a : vector3_t) : float := sqrtf (DotVector3 a a).

Definition NormalizeVector3 (a : vector3_t) : vector3_t :=
  let v := Vector3 f0 f0 f0 in
  if (a.(v3x) != f0)%f32 || (a.(v3y) != f0)%f32 || (a.(v3z) != f0)%f32 then
    let l := sqrtf (DotVector3 a a) in
    mkVector3 (a.(v3x) * (f1 / l))%f32 (a.(v3y) * (f1 / l))%f32
              (a.(v3z) * (f1 / l))%f32
  else v.

Definition ScaleVector3 (a : vector3_t) (s : float) : vector3_t :=
  mkVector3 (a.(v3x) * s)%f32 (a.(v3y) * s)%f32 (a.(v3z) * s)%f32.

Definition SubtractVector3 (a b : vector3_t) : vector3_t :=
  mkVector3 (a.(v3x) - b.(v3x))%f32 (a.(v3y) - b.(v3y))%f32
            (a.(v3z) - b.(v3z))%f32.

Definition TransformVector3Coord (v : vector3_t) (m : matrix4_t) : vector3_t :=
  mkVector3
    (v.(v3x) * m.(n0) + v.(v3y) * m.(n4) + v.(v3z) * m.(n8) + m.(n12))%f32
    (v.(v3x) * m.(n1) + v.(v3y) * m.(n5) + v.(v3z) * m.(n9) + m.(n13))%f32
    (v.(v3x) * m.(n2) + v.(v3y) * m.(n6) + v.(v3z) * m.(n10) + m.(n14))%f32.

Definition TransformVector3Normal (v : vector3_t) (m : matrix4_t) : vector3_t :=
  mkVector3
    (v.(v3x) * m.(n0) + v.(v3y) * m.(n4) + v.(v3z) * m.(n8) + m.(n12))%f32
    (v.(v3x) * m.(n1) + v.(v3y) * m.(n5) + v.(v3z) * m.(n9) + m.(n13))%f32
    (v.(v3x) * m.(n2) + v.(v3y) * m.(n6) + v.(v3z) * m.(n10) + m.(n14))%f32.

(** ** PLANE *)

Definition Plane (a b c d : float) : plane_t := mkPlane a b c d.

Definition DotPlaneCoordinate (p : plane_t) (position : vector3_t) : float :=
  DotVector4 (Vector4 p.(pa) p.(pb) p.(pc) p.(pd))
             (Vector4 position.(v3x) position.(v3y) position.(v3z) f1).

Definition LineIntersectPlane (plane : plane_t) (p0 p1 : vector3_t)
  : vector3_t :=
  let v0 := p0 in
  let v1 := p1 in
  let d0 := LengthVector3 v0 in
  let d1 := LengthVector3 v1 in
  (* if (d1 < d0) swap the distances and the points *)
  let '(d0, d1, v0, v1) :=
    if (d1 < d0)%f32 then (d1, d0, p1, p0) else (d0, d1, v0, v1) in
  if (plane.(pd) > d0)%f32 && (plane.(pd) < d1)%f32 then
    let v2 := Vector3 plane.(pa) plane.(pb) plane.(pc) in
    let v3 := SubtractVector3 v1 v0 in
    let d0 := (DotVector3 v2 v0 + plane.(pd))%f32 in
    let d1 := LengthVector3 v3 in
    let d2 := (d0 / d1)%f32 in
    AddVector3 v0 (ScaleVector3 v3 d2)
  else
    if (plane.(pd) - d0 <= plane.(pd) - d1)%f32 then v0 else v1.

Definition NormalizePlane (p : plane_t) : plane_t :=
  let v := NormalizeVector3 (Vector3 p.(pa) p.(pb) p.(pc)) in
  Plane v.(v3x) v.(v3y) v.(v3z) p.(pd).

(** ** MATRIX4 *)

(** The assignment [m.n[i] = x], for a constant index [i] in [0 .. 15]. *)
Definition set_n (m : matrix4_t) (i : nat) (x : float) : matrix4_t :=
  match i with
  | 0 =>
      mkMatrix4 x m.(n1) m.(n2) m.(n3) m.(n4) m.(n5) m.(n6) m.(n7) m.(n8)
        m.(n9) m.(n10) m.(n11) m.(n12) m.(n13) m.(n14) m.(n15)
  | 1 =>
      mkMatrix4 m.(n0) x m.(n2) m.(n3) m.(n4) m.(n5) m.(n6) m.(n7) m.(n8)
        m.(n9) m.(n10) m.(n11) m.(n12) m.(n13) m.(n14) m.(n15)
  | 2 =>
      mkMatrix4 m.(n0) m.(n1) x m.(n3) m.(n4) m.(n5) m.(n6) m.(n7) m.(n8)
        m.(n9) m.(n10) m.(n11) m.(n12) m.(n13) m.(n14) m.(n15)
  | 3 =>
      mkMatrix4 m.(n0) m.(n1) m.(n2) x m.(n4) m.(n5) m.(n6) m.(n7) m.(n8)
        m.(n9) m.(n10) m.(n11) m.(n12) m.(n13) m.(n14) m.(n15)
  | 4 =>
      mkMatrix4 m.(n0) m.(n1) m.(n2) m.(n3) x m.(n5) m.(n6) m.(n7) m.(n8)
        m.(n9) m.(n10) m.(n11) m.(n12) m.(n13) m.(n14) m.(n15)
  | 5 =>
      mkMatrix4 m.(n0) m.(n1) m.(n2) m.(n3) m.(n4) x m.(n6) m.(n7) m.(n8)
        m.(n9) m.(n10) m.(n11) m.(n12) m.(n13) m.(n14) m.(n15)
  | 6 =>
      mkMatrix4 m.(n0) m.(n1) m.(n2) m.(n3) m.(n4) m.(n5) x m.(n7) m.(n8)
        m.(n9) m.(n10) m.(n11) m.(n12) m.(n13) m.(n14) m.(n15)
  | 7 =>
      mkMatrix4 m.(n0) m.(n1) m.(n2) m.(n3) m.(n4) m.(n5) m.(n6) x m.(n8)
        m.(n9) m.(n10) m.(n11) m.(n12) m.(n13) m.(n14) m.(n15)
  | 8 =>
      mkMatrix4 m.(n0) m.(n1) m.(n2) m.(n3) m.(n4) m.(n5) m.(n6) m.(n7) x
        m.(n9) m.(n10) m.(n11) m.(n12) m.(n13) m.(n14) m.(n15)
  | 9 =>
      mkMatrix4 m.(n0) m.(n1) m.(n2) m.(n3) m.(n4) m.(n5) m.(n6) m.(n7)
        m.(n8) x m.(n10) m.(n11) m.(n12) m.(n13) m.(n14) m.(n15)
  | 10 =>
      mkMatrix4 m.(n0) m.(n1) m.(n2) m.(n3) m.(n4) m.(n5) m.(n6) m.(n7)
        m.(n8) m.(n9) x m.(n11) m.(n12) m.(n13) m.(n14) m.(n15)
  | 11 =>
      mkMatrix4 m.(n0) m.(n1) m.(n2) m.(n3) m.(n4) m.(n5) m.(n6) m.(n7)
        m.(n8) m.(n9) m.(n10) x m.(n12) m.(n13) m.(n14) m.(n15)
  | 12 =>
      mkMatrix4 m.(n0) m.(n1) m.(n2) m.(n3) m.(n4) m.(n5) m.(n6) m.(n7)
        m.(n8) m.(n9) m.(n10) m.(n11) x m.(n13) m.(n14) m.(n15)
  | 13 =>
      mkMatrix4 m.(n0) m.(n1) m.(n2) m.(n3) m.(n4) m.(n5) m.(n6) m.(n7)
        m.(n8) m.(n9) m.(n10) m.(n11) m.(n12) x m.(n14) m.(n15)
  | 14 =>
      mkMatrix4 m.(n0) m.(n1) m.(n2) m.(n3) m.(n4) m.(n5) m.(n6) m.(n7)
        m.(n8) m.(n9) m.(n10) m.(n11) m.(n12) m.(n13) x m.(n15)
  | 15 =>
      mkMatrix4 m.(n0) m.(n1) m.(n2) m.(n3) m.(n4) m.(n5) m.(n6) m.(n7)
        m.(n8) m.(n9) m.(n10) m.(n11) m.(n12) m.(n13) m.(n14) x
  | _ => m
  end%nat.

Definition Matrix4
  (_11 _12 _13 _14 _21 _22 _23 _24 _31 _32 _33 _34 _41 _42 _43 _44 : float)
  : matrix4_t :=
  mkMatrix4 _11 _12 _13 _14 _21 _22 _23 _24 _31 _32 _33 _34 _41 _42 _43 _44.

(** [Matrix4()] with every argument defaulted: the identity matrix. *)
Definition Matrix4_default : matrix4_t :=
  Matrix4 f1 f0 f0 f0  f0 f1 f0 f0  f0 f0 f1 f0  f0 f0 f0 f1.

Definition DeterminantMatrix4 (m : matrix4_t) : float :=
  (m.(n0) * m.(n5) * m.(n10) * m.(n15)
   + m.(n4) * m.(n9) * m.(n14) * m.(n3)
   + m.(n8) * m.(n13) * m.(n2) * m.(n7)
   + m.(n12) * m.(n1) * m.(n6) * m.(n11)
   - m.(n12) * m.(n9) * m.(n6) * m.(n3)
   + m.(n8) * m.(n5) * m.(n2) * m.(n15)
   + m.(n4) * m.(n1) * m.(n14) * m.(n11)
   + m.(n0) * m.(n13) * m.(n10) * m.(n7))%f32.

Definition InverseMatrix4 (m : matrix4_t) : matrix4_t :=
  let a := Matrix4 f0 f0 f0 f0  f0 f0 f0 f0  f0 f0 f0 f0  f0 f0 f0 f0 in
  let a := set_n a 0
    (a.(n0) +
     (m.(n5) * m.(n10) * m.(n15) + m.(n9) * m.(n14) * m.(n7)
      + m.(n13) * m.(n6) * m.(n11) - m.(n13) * m.(n10) * m.(n7)
      - m.(n9) * m.(n6) * m.(n15) - m.(n5) * m.(n14) * m.(n11)))%f32 in
  let a := set_n a 4
    (a.(n4) -
     (m.(n4) * m.(n10) * m.(n15) + m.(n8) * m.(n14) * m.(n7)
      + m.(n12) * m.(n6) * m.(n11) - m.(n12) * m.(n10) * m.(n7)
      - m.(n8) * m.(n6) * m.(n15) - m.(n4) * m.(n14) * m.(n11)))%f32 in
  let a := set_n a 8
    (a.(n8) +
     (m.(n4) * m.(n9) * m.(n15) + m.(n8) * m.(n13) * m.(n7)
      + m.(n12) * m.(n5) * m.(n11) - m.(n12) * m.(n9) * m.(n7)
      - m.(n8) * m.(n5) * m.(n15) - m.(n4) * m.(n13) * m.(n11)))%f32 in
  let a := set_n a 12
    (a.(n12) -
     (m.(n4) * m.(n9) * m.(n14) + m.(n8) * m.(n13) * m.(n6)
      + m.(n12) * m.(n5) * m.(n10) - m.(n12) * m.(n9) * m.(n6)
      - m.(n8) * m.(n5) * m.(n14) - m.(n4) * m.(n13) * m.(n10)))%f32 in
  let a := set_n a 1
    (a.(n1) -
     (m.(n1) * m.(n10) * m.(n15) + m.(n9) * m.(n14) * m.(n3)
      + m.(n13) * m.(n2) * m.(n11) - m.(n13) * m.(n10) * m.(n3)
      - m.(n9) * m.(n2) * m.(n15) - m.(n1) * m.(n14) * m.(n11)))%f32 in
  let a := set_n a 5
    (a.(n5) +
     (m.(n0) * m.(n10) * m.(n15) + m.(n8) * m.(n14) * m.(n3)
      + m.(n12) * m.(n2) * m.(n11) - m.(n12) * m.(n10) * m.(n3)
      - m.(n8) * m.(n2) * m.(n15) - m.(n0) * m.(n14) * m.(n11)))%f32 in
  let a := set_n a 9
    (a.(n9) -
     (m.(n0) * m.(n9) * m.(n15) + m.(n8) * m.(n13) * m.(n3)
      + m.(n12) * m.(n1) * m.(n11) - m.(n12) * m.(n9) * m.(n3)
      - m.(n8) * m.(n1) * m.(n15) - m.(n0) * m.(n13) * m.(n11)))%f32 in
  let a := set_n a 13
    (a.(n13) +
     (m.(n0) * m.(n9) * m.(n14) + m.(n8) * m.(n13) * m.(n2)
      + m.(n12) * m.(n1) * m.(n10) - m.(n12) * m.(n9) * m.(n2)
      - m.(n8) * m.(n1) * m.(n14) - m.(n0) * m.(n13) * m.(n10)))%f32 in
  let a := set_n a 2
    (a.(n2) +
     (m.(n1) * m.(n6) * m.(n15) + m.(n5) * m.(n14) * m.(n3)
      + m.(n13) * m.(n2) * m.(n7) - m.(n13) * m.(n6) * m.(n3)
      - m.(n5) * m.(n2) * m.(n15) - m.(n1) * m.(n14) * m.(n7)))%f32 in
  let a := set_n a 6
    (a.(n6) -
     (m.(n0) * m.(n6) * m.(n15) + m.(n4) * m.(n14) * m.(n3)
      + m.(n12) * m.(n2) * m.(n7) - m.(n12) * m.(n6) * m.(n3)
      - m.(n4) * m.(n2) * m.(n15) - m.(n0) * m.(n14) * m.(n7)))%f32 in
  let a := set_n a 10
    (a.(n10) +
     (m.(n0) * m.(n5) * m.(n15) + m.(n4) * m.(n13) * m.(n3)
      + m.(n12) * m.(n1) * m.(n7) - m.(n12) * m.(n5) * m.(n3)
      - m.(n4) * m.(n1) * m.(n15) - m.(n0) * m.(n13) * m.(n7)))%f32 in
  let a := set_n a 14
    (a.(n14) -
     (m.(n0) * m.(n5) * m.(n14) + m.(n4) * m.(n13) * m.(n2)
      + m.(n12) * m.(n1) * m.(n6) - m.(n12) * m.(n5) * m.(n2)
      - m.(n4) * m.(n1) * m.(n14) - m.(n0) * m.(n13) * m.(n6)))%f32 in
  let a := set_n a 3
    (a.(n3) -
     (m.(n1) * m.(n6) * m.(n14) + m.(n5) * m.(n10) * m.(n3)
      + m.(n9) * m.(n2) * m.(n7) - m.(n9) * m.(n6) * m.(n3)
      - m.(n5) * m.(n2) * m.(n11) - m.(n1) * m.(n10) * m.(n7)))%f32 in
  let a := set_n a 7
    (a.(n7) +
     (m.(n0) * m.(n6) * m.(n11) + m.(n4) * m.(n10) * m.(n3)
      + m.(n8) * m.(n2) * m.(n7) - m.(n8) * m.(n6) * m.(n3)
      - m.(n4) * m.(n2) * m.(n11) - m.(n0) * m.(n10) * m.(n7)))%f32 in
  let a := set_n a 11
    (a.(n11) -
     (m.(n0) * m.(n5) * m.(n11) + m.(n4) * m.(n9) * m.(n3)
      + m.(n8) * m.(n1) * m.(n7) - m.(n8) * m.(n5) * m.(n3)
      - m.(n4) * m.(n1) * m.(n11) - m.(n0) * m.(n9) * m.(n7)))%f32 in
  let a := set_n a 15
    (a.(n15) +
     (m.(n0) * m.(n5) * m.(n10) + m.(n4) * m.(n9) * m.(n2)
      + m.(n8) * m.(n1) * m.(n6) - m.(n8) * m.(n5) * m.(n2)
      - m.(n4) * m.(n1) * m.(n10) - m.(n0) * m.(n9) * m.(n6)))%f32 in
  let d := DeterminantMatrix4 m in
  if (d == f0)%f32 then Matrix4_default
  else
    let d := (f1 / d)%f32 in
    let a := set_n a 0 (a.(n0) * d)%f32 in
    let a := set_n a 1 (a.(n1) * d)%f32 in
    let a := set_n a 2 (a.(n2) * d)%f32 in
    let a := set_n a 3 (a.(n3) * d)%f32 in
    let a := set_n a 4 (a.(n4) * d)%f32 in
    let a := set_n a 5 (a.(n5) * d)%f32 in
    let a := set_n a 6 (a.(n6) * d)%f32 in
    let a := set_n a 7 (a.(n7) * d)%f32 in
    let a := set_n a 8 (a.(n8) * d)%f32 in
    let a := set_n a 9 (a.(n9) * d)%f32 in
    let a := set_n a 10 (a.(n10) * d)%f32 in
    let a := set_n a 11 (a.(n11) * d)%f32 in
    let a := set_n a 12 (a.(n12) * d)%f32 in
    let a := set_n a 13 (a.(n13) * d)%f32 in
    let a := set_n a 14 (a.(n14) * d)%f32 in
    let a := set_n a 15 (a.(n15) * d)%f32 in
    a.

Definition MultiplyMatrix4 (a b : matrix4_t) : matrix4_t :=
  let m := Matrix4_default in
  let m := set_n m 0
    (a.(n0) * b.(n0) + a.(n1) * b.(n4)
     + a.(n2) * b.(n8) + a.(n3) * b.(n12))%f32 in
  let m := set_n m 1
    (a.(n0) * b.(n1) + a.(n1) * b.(n5)
     + a.(n2) * b.(n9) + a.(n3) * b.(n13))%f32 in
  let m := set_n m 2
    (a.(n0) * b.(n2) + a.(n1) * b.(n6)
     + a.(n2) * b.(n10) + a.(n3) * b.(n14))%f32 in
  let m := set_n m 3
    (a.(n0) * b.(n3) + a.(n1) * b.(n7)
     + a.(n2) * b.(n11) + a.(n3) * b.(n15))%f32 in
  let m := set_n m 4
    (a.(n4) * b.(n0) + a.(n5) * b.(n4)
     + a.(n6) * b.(n8) + a.(n7) * b.(n12))%f32 in
  let m := set_n m 5
    (a.(n4) * b.(n1) + a.(n5) * b.(n5)
     + a.(n6) * b.(n9) + a.(n7) * b.(n13))%f32 in
  let m := set_n m 6
    (a.(n4) * b.(n2) + a.(n5) * b.(n6)
     + a.(n6) * b.(n10) + a.(n7) * b.(n14))%f32 in
  let m := set_n m 7
    (a.(n4) * b.(n3) + a.(n5) * b.(n7)
     + a.(n6) * b.(n11) + a.(n7) * b.(n15))%f32 in
  let m := set_n m 8
    (a.(n8) * b.(n0) + a.(n9) * b.(n4)
     + a.(n10) * b.(n8) + a.(n11) * b.(n12))%f32 in
  let m := set_n m 9
    (a.(n8) * b.(n1) + a.(n9) * b.(n5)
     + a.(n10) * b.(n9) + a.(n11) * b.(n13))%f32 in
  let m := set_n m 10
    (a.(n8) * b.(n2) + a.(n9) * b.(n6)
     + a.(n10) * b.(n10) + a.(n11) * b.(n14))%f32 in
  let m := set_n m 11
    (a.(n8) * b.(n3) + a.(n9) * b.(n7)
     + a.(n10) * b.(n11) + a.(n11) * b.(n15))%f32 in
  let m := set_n m 12
    (a.(n12) * b.(n0) + a.(n13) * b.(n4)
     + a.(n14) * b.(n8) + a.(n15) * b.(n12))%f32 in
  let m := set_n m 13
    (a.(n12) * b.(n1) + a.(n13) * b.(n5)
     + a.(n14) * b.(n9) + a.(n15) * b.(n13))%f32 in
  let m := set_n m 14
    (a.(n12) * b.(n2) + a.(n13) * b.(n6)
     + a.(n14) * b.(n10) + a.(n15) * b.(n14))%f32 in
  let m := set_n m 15
    (a.(n12) * b.(n3) + a.(n13) * b.(n7)
     + a.(n14) * b.(n11) + a.(n15) * b.(n15))%f32 in
  m.

Definition OrthographicOffCenterLHMatrix4 (l r t b zn zf : float)
  : matrix4_t :=
  Matrix4
    (f2 / (r - l))%f32   f0                   f0                 f0
    f0                   (f2 / (t - b))%f32   f0                 f0
    f0                   f0                   (f1 / (zf - zn))%f32 f0
    ((l + r) / (l - r))%f32 ((t + b) / (b - t))%f32 (zn / (zn - zf))%f32 f1.

Definition ReflectMatrix4 (plane : plane_t) : matrix4_t :=
  let p := NormalizePlane plane in
  let ta := (- f2 * p.(pa))%f32 in
  let tb := (- f2 * p.(pb))%f32 in
  let tc := (- f2 * p.(pc))%f32 in
  Matrix4
    (ta * p.(pa) + f1)%f32 (tb * p.(pa))%f32 (tc * p.(pa))%f32 f0
    (ta * p.(pb))%f32 (tb * p.(pb) + f1)%f32 (tc * p.(pb))%f32 f0
    (ta * p.(pc))%f32 (tb * p.(pc))%f32 (tc * p.(pc) + f1)%f32 f0
    (ta * p.(pd))%f32 (tb * p.(pd))%f32 (tc * p.(pd))%f32 f1.

(** The functions below call into the C math library, which is not part of
    the header; its functions are parameters of the development. *)
Section Libm.

Variables cosf sinf tanf : float -> float.

Definition PerspectiveFovLHMatrix4 (fovy aspect zn zf : float) : matrix4_t :=
  let yScale := tanf (H_PI - fovy / f2)%f32 in
  let xScale := (yScale / aspect)%f32 in
  Matrix4
    xScale f0     f0                            f0
    f0     yScale f0                            f0
    f0     f0     (zf / (zf - zn))%f32          f1
    f0     f0     ((- zn * zf) / (zf - zn))%f32 f0.

Definition RotationXMatrix4 (angle : float) : matrix4_t :=
  let m := Matrix4_default in
  let m := set_n m 5 (cosf angle) in
  let m := set_n m 6 (sinf angle) in
  let m := set_n m 9 (- m.(n6))%f32 in
  let m := set_n m 10 m.(n5) in
  m.

Definition RotationYMatrix4 (angle : float) : matrix4_t :=
  let m := Matrix4_default in
  let m := set_n m 0 (cosf angle) in
  let m := set_n m 2 (- sinf angle)%f32 in
  let m := set_n m 8 (- m.(n2))%f32 in
  let m := set_n m 10 m.(n0) in
  m.

Definition RotationZMatrix4 (angle : float) : matrix4_t :=
  let m := Matrix4_default in
  let m := set_n m 0 (cosf angle) in
  let m := set_n m 1 (sinf angle) in
  let m := set_n m 4 (- m.(n1))%f32 in
  let m := set_n m 5 m.(n0) in
  m.

Definition RotationYawPitchRollMatrix4 (y p r : float) : matrix4_t :=
  MultiplyMatrix4 (RotationZMatrix4 r)
    (MultiplyMatrix4 (RotationXMatrix4 p) (RotationYMatrix4 y)).

End Libm.

(** ** VIEWPORT *)

Definition Viewport (x y w h : Z) (minZ maxZ : float) : viewport_t :=
  mkViewport x y w h minZ maxZ.

Definition ProjectViewport (v : vector3_t) (viewport : viewport_t)
  (projection view world : matrix4_t) : vector3_t :=
  let t :=
    MultiplyMatrix4
      (OrthographicOffCenterLHMatrix4
         (float_of_Z viewport.(vp_x))
         (float_of_Z (uint32_add viewport.(vp_x) viewport.(vp_w)))
         (float_of_Z viewport.(vp_y))
         (float_of_Z (uint32_add viewport.(vp_y) viewport.(vp_h)))
         viewport.(minZ) viewport.(maxZ))
      (MultiplyMatrix4 projection (MultiplyMatrix4 view world)) in
  TransformVector3Coord v t.

Definition UnprojectViewport (v : vector3_t) (viewport : viewport_t)
  (projection view world : matrix4_t) : vector3_t :=
  let t :=
    MultiplyMatrix4 world
      (MultiplyMatrix4 view
         (MultiplyMatrix4 projection
            (OrthographicOffCenterLHMatrix4
               (float_of_Z viewport.(vp_x))
               (float_of_Z (uint32_add viewport.(vp_x) viewport.(vp_w)))
               (float_of_Z viewport.(vp_y))
               (float_of_Z (uint32_add viewport.(vp_y) viewport.(vp_h)))
               viewport.(minZ) viewport.(maxZ)))) in
  TransformVector3Coord v t.


(** ** Reference definitions used in the statements *)

(** "The first three components" of a 4d vector. *)
Definition xyz_of (a : vector4_t) : vector3_t :=
  Vector3 a.(v4x) a.(v4y) a.(v4z).

(** The general 4x4 determinant the specification compares
    [DeterminantMatrix4] with: the textbook cofactor expansion along the
    first row, with the same binary32 arithmetic.  It is not taken from the
    source. *)
Definition det3 (a b c d e f g h i : float) : float :=
  (a * (e * i - f * h) - b * (d * i - f * g) + c * (d * h - e * g))%f32.

Definition determinant_general (m : matrix4_t) : float :=
  (m.(n0) * det3 m.(n5) m.(n6) m.(n7) m.(n9) m.(n10) m.(n11)
                 m.(n13) m.(n14) m.(n15)
   - m.(n1) * det3 m.(n4) m.(n6) m.(n7) m.(n8) m.(n10) m.(n11)
                   m.(n12) m.(n14) m.(n15)
   + m.(n2) * det3 m.(n4) m.(n5) m.(n7) m.(n8) m.(n9) m.(n11)
                   m.(n12) m.(n13) m.(n15)
   - m.(n3) * det3 m.(n4) m.(n5) m.(n6) m.(n8) m.(n9) m.(n10)
                   m.(n12) m.(n13) m.(n14))%f32.

(** Rows [i] and [j] of a matrix hold the same four floats. *)
Definition row (m : matrix4_t) (i : nat) : list float :=
  match i with
  | 0 => m.(n0) :: m.(n1) :: m.(n2) :: m.(n3) :: nil
  | 1 => m.(n4) :: m.(n5) :: m.(n6) :: m.(n7) :: nil
  | 2 => m.(n8) :: m.(n9) :: m.(n10) :: m.(n11) :: nil
  | 3 => m.(n12) :: m.(n13) :: m.(n14) :: m.(n15) :: nil
  | _ => nil
  end%nat.

(** The matrix [ProjectViewport] applies to its point. *)
Definition project_matrix (viewport : viewport_t)
  (projection view world : matrix4_t) : matrix4_t :=
  MultiplyMatrix4
    (OrthographicOffCenterLHMatrix4
       (float_of_Z viewport.(vp_x))
       (float_of_Z (uint32_add viewport.(vp_x) viewport.(vp_w)))
       (float_of_Z viewport.(vp_y))
       (float_of_Z (uint32_add viewport.(vp_y) viewport.(vp_h)))
       viewport.(minZ) viewport.(maxZ))
    (MultiplyMatrix4 projection (MultiplyMatrix4 view world)).

(** Sample inputs of the statements below. *)

(** The viewport [(0, 0, 800, 600, 0, 1)] and the arguments of
    [PerspectiveFovLHMatrix4 (pi/4, 800/600, 0.1, 100)]. *)
Definition rt_viewport : viewport_t := Viewport 0 0 800 600 f0 f1.
Definition rt_fovy : float := float_lit 785398163 1000000000.
Definition rt_aspect : float := (float_of_Z 800 / float_of_Z 600)%f32.
Definition rt_zn : float := float_lit 1 10.
Definition rt_zf : float := float_of_Z 100.
Definition rt_tol : float := float_lit 1 100.            (* 1e-2 *)

(** The point [(0, 0, 50)]: on the view axis, half way into the frustum. *)
Definition rt_point : vector3_t := Vector3 f0 f0 (float_of_Z 50).

(** The tolerance [1e-4] of the matrix identities. *)
Definition tol_1e4 : float := float_lit 1 10000.

(** [[1 1 0 0; -1 1 0 0; 0 0 1 0; 0 0 0 1]]: general determinant 2. *)
Definition inv_input : matrix4_t :=
  Matrix4 f1 f1 f0 f0  (- f1)%f32 f1 f0 f0  f0 f0 f1 f0  f0 f0 f0 f1.

(** [[1 1 0 0; 0 1 1 0; 0 0 1 0; 0 0 1 1]]: determinant 1, and
    [n[11] <> n[14]]. *)
Definition inv_input' : matrix4_t :=
  Matrix4 f1 f1 f0 f0  f0 f1 f1 f0  f0 f0 f1 f0  f0 f0 f1 f1.

(** A matrix with a translation row, [(5, -1, 2)]. *)
Definition coord_input : matrix4_t :=
  Matrix4 f1 f0 f0 f0  f0 f1 f0 f0  f0 f0 f1 f0
          (float_of_Z 5) (- f1)%f32 f2 f1.

(** [[1 0 0 0; 0 1 0 1; 0 0 1 0; 0 1 0 1]]: rows 1 and 3 are the same. *)
Definition det_input : matrix4_t :=
  Matrix4 f1 f0 f0 f0  f0 f1 f0 f1  f0 f0 f1 f0  f0 f1 f0 f1.

Definition zero_matrix : matrix4_t :=
  Matrix4 f0 f0 f0 f0  f0 f0 f0 f0  f0 f0 f0 f0  f0 f0 f0 f0.

(** The plane [2x - 2 = 0], that is [x = 1], and a point on it. *)
Definition plane_x1 : plane_t := Plane f2 f0 f0 (- f2)%f32.
Definition point_x1 : vector3_t := Vector3 f1 f0 f0.

(** The plane [x = 0] and points on either side of it. *)
Definition plane_x0 : plane_t := Plane f1 f0 f0 f0.
Definition point_m1 : vector3_t := Vector3 (- f1)%f32 f0 f0.
Definition point_p1 : vector3_t := Vector3 f1 f0 f0.
Definition point_p5 : vector3_t := Vector3 (float_of_Z 5) f0 f0.

(** Low-order polynomial stand-ins for [cosf] and [sinf], to instantiate
    the C library parameters at; like the library functions they are exact
    at zero. *)
Definition cosf_poly (x : float) : float := (f1 - x * x / f2)%f32.
Definition sinf_poly (x : float) : float :=
  (x - x * x * x / float_of_Z 6)%f32.

(** A stand-in for [tanf] that returns the float nearest to
    [tan (3 pi / 8) = 2.414213562...], the value at the one argument
    [PerspectiveFovLHMatrix4] passes for [fovy = pi / 4]. *)
Definition tanf_sample (x : float) : float :=
  float_lit 2414213562 1000000000.

(** ** Further functions of the header *)

(** The macros [MAX(a, b)] and [MIN(a, b)], at type [float]:
    [(a > b ? a : b)] and [(a < b ? a : b)]. *)
Definition MAX (a b : float) : float := if (a > b)%f32 then a else b.
Definition MIN (a b : float) : float := if (a < b)%f32 then a else b.

(** *** COLOR *)

Record color_t :=
  mkColor { col_r : float; col_g : float; col_b : float; col_a : float }.

Definition Color (r g b a : float) : color_t := mkColor r g b a.

(** [Color()]: opaque black. *)
Definition Color_default : color_t := Color f0 f0 f0 f1.

Definition AddColor (c0 c1 : color_t) : color_t :=
  let c := Color_default in
  let c := mkColor (c0.(col_r) + c1.(col_r))%f32 (c0.(col_g) + c1.(col_g))%f32
                   (c0.(col_b) + c1.(col_b))%f32 (c0.(col_a) + c1.(col_a))%f32
  in
  mkColor (if (c.(col_r) > f1)%f32 then f1 else c.(col_r))
          (if (c.(col_g) > f1)%f32 then f1 else c.(col_g))
          (if (c.(col_b) > f1)%f32 then f1 else c.(col_b))
          (if (c.(col_a) > f1)%f32 then f1 else c.(col_a)).

Definition ModulateColor (c0 c1 : color_t) : color_t :=
  mkColor (c0.(col_r) * c1.(col_r))%f32 (c0.(col_g) * c1.(col_g))%f32
          (c0.(col_b) * c1.(col_b))%f32 (c0.(col_a) * c1.(col_a))%f32.

Definition SubtractColor (c0 c1 : color_t) : color_t :=
  let c := Color_default in
  let c := mkColor (c0.(col_r) - c1.(col_r))%f32 (c0.(col_g) - c1.(col_g))%f32
                   (c0.(col_b) - c1.(col_b))%f32 (c0.(col_a) - c1.(col_a))%f32
  in
  mkColor (if (c.(col_r) < f0)%f32 then f0 else c.(col_r))
          (if (c.(col_g) < f0)%f32 then f0 else c.(col_g))
          (if (c.(col_b) < f0)%f32 then f0 else c.(col_b))
          (if (c.(col_a) < f0)%f32 then f0 else c.(col_a)).

(** *** RECTANGLE *)

(** [rect_t] is a union of two views of the same four [long]s:
    [(l, t, r, b)] and [(x, y, w, h)]. *)
Record rect_t :=
  mkRect { rect_l : Z; rect_t_ : Z; rect_r : Z; rect_b : Z }.

Definition rect_x (r : rect_t) : Z := r.(rect_l).
Definition rect_y (r : rect_t) : Z := r.(rect_t_).
Definition rect_w (r : rect_t) : Z := r.(rect_r).
Definition rect_h (r : rect_t) : Z := r.(rect_b).

Definition RectangleXY (x y w h : Z) : rect_t := mkRect x y w h.
Definition RectangleLT (l t r b : Z) : rect_t := mkRect l t r b.

(** The width of [long] depends on the platform (32 or 64 bits); it is a
    parameter.  Signed overflow is undefined in C++: the model wraps around,
    as two's complement hardware does, and the statements about these
    functions assume the sums to be in range. *)
Section Long.

Variable long_bits : Z.

Definition long_wrap (z : Z) : Z :=
  (z + 2 ^ (long_bits - 1)) mod 2 ^ long_bits - 2 ^ (long_bits - 1).

Definition long_add (a b : Z) : Z := long_wrap (a + b).

Definition in_long (z : Z) : Prop :=
  - 2 ^ (long_bits - 1) <= z < 2 ^ (long_bits - 1).

Definition IntersectsRectangleXY (r0 r1 : rect_t) : bool :=
  let ra := long_add (rect_x r0) (rect_w r0) in
  let rb := long_add (rect_x r1) (rect_w r1) in
  let ba := long_add (rect_y r0) (rect_h r0) in
  let bb := long_add (rect_y r1) (rect_h r1) in
  let minR := if ra <? rb then ra else rb in
  let minB := if ba <? bb then ba else bb in
  let maxX := if rect_x r0 >? rect_x r1 then rect_x r0 else rect_x r1 in
  let maxY := if rect_y r0 >? rect_y r1 then rect_y r0 else rect_y r1 in
  if (minR >? maxX) && (minB >? maxY) then true else false.

Definition ContainsRectangleXY (rect : rect_t) (x y : Z) : bool :=
  if ((rect_x rect <=? x) && (x <? long_add (rect_x rect) (rect_w rect)))
     && ((rect_y rect <=? y) && (y <? long_add (rect_y rect) (rect_h rect)))
  then true else false.

Definition OutsideRectangleXY (rect : rect_t) (x y : Z) : bool :=
  if (x <? rect_x rect) || (x >? long_add (rect_x rect) (rect_w rect))
     || (y <? rect_y rect) || (y >? long_add (rect_y rect) (rect_h rect))
  then true else false.

End Long.

Definition IntersectsRectangleLT (r0 r1 : rect_t) : bool :=
  let minR := if r0.(rect_r) <? r1.(rect_r) then r0.(rect_r) else r1.(rect_r) in
  let minB := if r0.(rect_b) <? r1.(rect_b) then r0.(rect_b) else r1.(rect_b) in
  let maxX := if r0.(rect_l) >? r1.(rect_l) then r0.(rect_l) else r1.(rect_l) in
  let maxY :=
    if r0.(rect_t_) >? r1.(rect_t_) then r0.(rect_t_) else r1.(rect_t_) in
  if (minR >? maxX) && (minB >? maxY) then true else false.

Definition ContainsRectangleLT (rect : rect_t) (x y : Z) : bool :=
  if ((rect.(rect_l) <=? x) && (x <? rect.(rect_r)))
     && ((rect.(rect_t_) <=? y) && (y <? rect.(rect_b)))
  then true else false.

Definition OutsideRectangleLT (rect : rect_t) (x y : Z) : bool :=
  if (x <? rect.(rect_l)) || (x >? rect.(rect_r))
     || (y <? rect.(rect_t_)) || (y >? rect.(rect_b))
  then true else false.

(** *** VECTOR4 *)

Definition AddVector4 (a b : vector4_t) : vector4_t :=
  mkVector4 (a.(v4x) + b.(v4x))%f32 (a.(v4y) + b.(v4y))%f32
            (a.(v4z) + b.(v4z))%f32 (a.(v4w) + b.(v4w))%f32.

Definition LengthVector4 (a : vector4_t) : float := sqrtf (DotVector4 a a).

Definition NormalizeVector4 (a : vector4_t) : vector4_t :=
  let v := Vector4 f0 f0 f0 f0 in
  if (v.(v4x) != f0)%f32 || (v.(v4y) != f0)%f32 || (v.(v4z) != f0)%f32
     || (v.(v4w) != f0)%f32
  then
    let l := sqrtf (DotVector4 v v) in
    let v := set_v4x v (a.(v4x) * (f1 / l))%f32 in
    let v := set_v4y v (a.(v4y) * (f1 / l))%f32 in
    let v := set_v4z v (a.(v4z) * (f1 / l))%f32 in
    let v := set_v4w v (a.(v4w) * (f1 / l))%f32 in
    v
  else v.

(** *** VECTOR3 *)

Definition CrossVector3 (a b : vector3_t) : vector3_t :=
  mkVector3 (a.(v3y) * b.(v3z) - a.(v3z) * b.(v3y))%f32
            (a.(v3z) * b.(v3x) - a.(v3x) * b.(v3z))%f32
            (a.(v3x) * b.(v3y) - a.(v3y) * b.(v3x))%f32.

Definition LengthSquareVector3 (a : vector3_t) : float := DotVector3 a a.


Definition MaximizeVector3 (a b : vector3_t) : vector3_t :=
  mkVector3 (MAX a.(v3x) b.(v3x)) (MAX a.(v3y) b.(v3y))
            (MAX a.(v3z) b.(v3z)).

Definition MinimizeVector3 (a b : vector3_t) : vector3_t :=
  mkVector3 (MIN a.(v3x) b.(v3x)) (MIN a.(v3y) b.(v3y))
            (MIN a.(v3z) b.(v3z)).

(** *** VECTOR2 *)

Record vector2_t := mkVector2 { v2x : float; v2y : float }.

Definition Vector2 (x y : float) : vector2_t := mkVector2 x y.

Definition CounterClockwiseWindingVector2 (a b : vector2_t) : float :=
  ((a.(v2x) * b.(v2y)) - (a.(v2y) * b.(v2x)))%f32.

Definition DotVector2 (a b : vector2_t) : float :=
  ((a.(v2x) * b.(v2x)) + (a.(v2y) * b.(v2y)))%f32.

Definition LengthVector2 (a : vector2_t) : float := sqrtf (DotVector2 a a).

(** *** Contraction of [a * b - c * d]

    C++ lets an implementation contract a floating-point expression, that
    is evaluate it as one operation with a single rounding; on targets with
    a fused multiply-add, compilers contract [a * b - c * d] into one
    product and one fused operation.  [CrossVector3] and
    [CounterClockwiseWindingVector2] above round every operation, as the
    rest of this development does; the definitions below are the same two
    functions with the evaluation of their expressions made a parameter. *)

(** The product before it is rounded: a finite product keeps all the bits
    of its mantissa. *)
Definition fmul_exact (x y : float) : float :=
  match x, y with
  | S754_finite sx mx ex, S754_finite sy my ey =>
      S754_finite (xorb sx sy) (mx * my) (ex + ey)
  | _, _ => fmul x y
  end.

(** The fused multiply-add [x * y + z], rounded once. *)
Definition fma (x y z : float) : float :=
  match fmul_exact x y, z with
  | S754_finite _ _ _, S754_zero _ => fmul x y
  | p, _ => fadd p z
  end.

(** How [a * b - c * d] is evaluated: every operation rounded, or one of
    the two products fused into the subtraction. *)
Inductive fp_contract : Type := rounded_each | fused_first | fused_second.

Definition mul_sub_mul (k : fp_contract) (a b c d : float) : float :=
  match k with
  | rounded_each => (a * b - c * d)%f32
  | fused_first => fma a b (- (c * d))%f32
  | fused_second => fma (- c)%f32 d (a * b)%f32
  end.

Definition CrossVector3_under (k : fp_contract) (a b : vector3_t)
  : vector3_t :=
  mkVector3 (mul_sub_mul k a.(v3y) b.(v3z) a.(v3z) b.(v3y))
            (mul_sub_mul k a.(v3z) b.(v3x) a.(v3x) b.(v3z))
            (mul_sub_mul k a.(v3x) b.(v3y) a.(v3y) b.(v3x)).

Definition CounterClockwiseWindingVector2_under (k : fp_contract)
  (a b : vector2_t) : float :=
  mul_sub_mul k a.(v2x) b.(v2y) a.(v2y) b.(v2x).

(** *** PLANE *)

Definition FromPointNormalPlane (point normal : vector3_t) : plane_t :=
  mkPlane normal.(v3x) normal.(v3y) normal.(v3z)
          (- DotVector3 normal point)%f32.

Definition FromPointsPlane (v0 v1 v2 : vector3_t) : plane_t :=
  let n := CrossVector3 (SubtractVector3 v1 v0) (SubtractVector3 v2 v0) in
  FromPointNormalPlane v0 n.

(** *** MATRIX4 *)

Definition ScalingMatrix4 (x y z : float) : matrix4_t :=
  let m := Matrix4_default in
  let m := set_n m 0 x in
  let m := set_n m 5 y in
  let m := set_n m 10 z in
  m.

Definition TranslationMatrix4 (x y z : float) : matrix4_t :=
  let m := Matrix4_default in
  let m := set_n m 12 x in
  let m := set_n m 13 y in
  let m := set_n m 14 z in
  m.

Definition TransposeMatrix4 (m : matrix4_t) : matrix4_t :=
  let a := Matrix4_default in
  let a := set_n a 0 m.(n0) in
  let a := set_n a 1 m.(n4) in
  let a := set_n a 2 m.(n8) in
  let a := set_n a 3 m.(n12) in
  let a := set_n a 4 m.(n1) in
  let a := set_n a 5 m.(n5) in
  let a := set_n a 6 m.(n9) in
  let a := set_n a 7 m.(n13) in
  let a := set_n a 8 m.(n2) in
  let a := set_n a 9 m.(n6) in
  let a := set_n a 10 m.(n10) in
  let a := set_n a 11 m.(n14) in
  let a := set_n a 12 m.(n3) in
  let a := set_n a 13 m.(n7) in
  let a := set_n a 14 m.(n11) in
  let a := set_n a 15 m.(n15) in
  a.

(** ** Vocabulary of the further statements *)

(** Classes of floats. *)
Definition is_nan (x : float) : bool :=
  match x with S754_nan => true | _ => false end.

Definition is_zero (x : float) : bool :=
  match x with S754_zero _ => true | _ => false end.

(** Neither infinite nor NaN. *)
Definition is_finite (x : float) : bool :=
  match x with S754_zero _ | S754_finite _ _ _ => true | _ => false end.

(** A float that is neither infinite nor NaN. *)
Definition finite_float (x : float) : bool := is_float x && is_finite x.

(** The same float, except possibly for the sign of a zero. *)
Definition same_value (x y : float) : Prop :=
  x = y \/ (is_zero x = true /\ is_zero y = true).

Definition entries (m : matrix4_t) : list float :=
  m.(n0) :: m.(n1) :: m.(n2) :: m.(n3) ::
  m.(n4) :: m.(n5) :: m.(n6) :: m.(n7) ::
  m.(n8) :: m.(n9) :: m.(n10) :: m.(n11) ::
  m.(n12) :: m.(n13) :: m.(n14) :: m.(n15) :: nil.

Definition coords3 (v : vector3_t) : list float :=
  v.(v3x) :: v.(v3y) :: v.(v3z) :: nil.

(** Entry by entry [a == b], the C++ comparison. *)
Definition matrix_feq (a b : matrix4_t) : bool :=
  forallb (fun p => feq (fst p) (snd p)) (combine (entries a) (entries b)).

Definition coords4 (v : vector4_t) : list float :=
  v.(v4x) :: v.(v4y) :: v.(v4z) :: v.(v4w) :: nil.

Definition channels (c : color_t) : list float :=
  c.(col_r) :: c.(col_g) :: c.(col_b) :: c.(col_a) :: nil.

(** The sign bit; a NaN counts as unsigned. *)
Definition sign_bit (x : float) : bool :=
  match x with
  | S754_zero s | S754_infinity s | S754_finite s _ _ => s
  | S754_nan => false
  end.

(** What [p - p] and [p + (-p)] evaluate to: [+0], or NaN when [p] is
    infinite or NaN. *)
Definition cancelled (p : float) : float :=
  if is_finite p then f0 else S754_nan.

Definition pos_inf : float := S754_infinity false.

(** [2^-100], whose square underflows to zero. *)
Definition tiny : float := S754_finite false 8388608 (-123).

(** The [(l, t, r, b)] rectangle that covers the same points as an
    [(x, y, w, h)] one. *)
Definition rect_to_LT (r : rect_t) : rect_t :=
  RectangleLT (rect_x r) (rect_y r) (rect_x r + rect_w r)
    (rect_y r + rect_h r).

(** Component by component [a <= b], the C++ comparison. *)
Definition vector3_le (a b : vector3_t) : bool :=
  (a.(v3x) <= b.(v3x))%f32 && (a.(v3y) <= b.(v3y))%f32
  && (a.(v3z) <= b.(v3z))%f32.

(** [5.0f], for sample offsets and factors. *)
Definition f5 : float := float_of_Z 5.

(** The vectors [(0.1f, 0.2f, 0.3f)] and [(0.1f, 0.2f)]: the products of
    their components are not representable. *)
Definition tenths3 : vector3_t :=
  Vector3 (float_lit 1 10) (float_lit 2 10) (float_lit 3 10).
Definition tenths2 : vector2_t := Vector2 (float_lit 1 10) (float_lit 2 10).

(** ** Facts about binary32 arithmetic *)

(** [1.0f * x = x] for every float [x]: the product is exact. *)
Lemma fmul_one_l (x : float) : is_float x = true -> (f1 * x)%f32 = x.
Proof.
  destruct x as [s|s| |s m e]; try reflexivity.
  unfold is_float, valid_binary, bounded, canonical_mantissa.
  intros H. apply andb_prop in H. destruct H as [Hc He].
  apply Z.eqb_eq in Hc.
  change (f1 * S754_finite s m e)%f32
    with (binary_round_aux prec emax s
            (Zpos (m~0~0~0~0~0~0~0~0~0~0~0~0~0~0~0~0~0~0~0~0~0~0~0))
            (-23 + e) loc_Exact).
  unfold binary_round_aux, shr_fexp.
  set (m' := (m~0~0~0~0~0~0~0~0~0~0~0~0~0~0~0~0~0~0~0~0~0~0~0)%positive).
  assert (Hd : Zdigits2 (Zpos m') + (-23 + e) = Zpos (digits2_pos m) + e).
  { subst m'. cbn [Zdigits2 digits2_pos]. lia. }
  rewrite Hd, Hc.
  replace (e - (-23 + e)) with 23 by lia.
  subst m'. cbn [shr shr_record_of_loc iter_pos shr_1 orb].
  replace (-23 + e + 23) with e by lia.
  cbn [shr_m loc_of_shr_record round_nearest_even Zdigits2].
  rewrite Hc, Z.sub_diag.
  cbn [shr shr_record_of_loc shr_m].
  rewrite He. reflexivity.
Qed.

(** ** Vector operations *)

(** C8.  For all 4d vectors [a] and [b], [SubtractVector4 a b] is
    [(a.x - b.x, a.y - b.y, a.z - b.z, a.w + b.w)]: the first three
    components are differences, the [w] component is a sum. *)
Theorem SubtractVector4_w_adds (a b : vector4_t) :
  SubtractVector4 a b
  = Vector4 (a.(v4x) - b.(v4x))%f32 (a.(v4y) - b.(v4y))%f32
            (a.(v4z) - b.(v4z))%f32 (a.(v4w) + b.(v4w))%f32.
Proof. reflexivity. Qed.

(** C9.  For every 3d vector [v] and matrix [m], [TransformVector3Normal v m]
    is exactly [TransformVector3Coord v m]: the normal transform adds the
    translation entries [n[12]], [n[13]], [n[14]] too. *)
Theorem TransformVector3Normal_eq_Coord (v : vector3_t) (m : matrix4_t) :
  TransformVector3Normal v m = TransformVector3Coord v m
  /\ v3x (TransformVector3Normal v m)
     = (v.(v3x) * m.(n0) + v.(v3y) * m.(n4) + v.(v3z) * m.(n8)
        + m.(n12))%f32
  /\ v3y (TransformVector3Normal v m)
     = (v.(v3x) * m.(n1) + v.(v3y) * m.(n5) + v.(v3z) * m.(n9)
        + m.(n13))%f32
  /\ v3z (TransformVector3Normal v m)
     = (v.(v3x) * m.(n2) + v.(v3y) * m.(n6) + v.(v3z) * m.(n10)
        + m.(n14))%f32.
Proof. repeat split. Qed.

(** C10.  For every 3d vector [v] and matrix [m] (whose translation entries
    are floats), [TransformVector3Coord v m] is exactly the first three
    components of [TransformVector4 (v.x, v.y, v.z, 1) m]: nothing is divided
    by the fourth component.  [ProjectViewport] is that transform by its
    combined matrix, so it performs no perspective divide either. *)
Theorem TransformVector3Coord_no_divide :
  (forall (v : vector3_t) (m : matrix4_t),
      is_float m.(n12) = true ->
      is_float m.(n13) = true ->
      is_float m.(n14) = true ->
      TransformVector3Coord v m
      = xyz_of (TransformVector4 (Vector4 v.(v3x) v.(v3y) v.(v3z) f1) m))
  /\ (forall v viewport projection view world,
        let t := project_matrix viewport projection view world in
        ProjectViewport v viewport projection view world
        = TransformVector3Coord v t
        /\ (is_float t.(n12) = true ->
            is_float t.(n13) = true ->
            is_float t.(n14) = true ->
            ProjectViewport v viewport projection view world
            = xyz_of (TransformVector4
                        (Vector4 v.(v3x) v.(v3y) v.(v3z) f1) t))).
Proof.
  assert (E : forall (v : vector3_t) (m : matrix4_t),
             is_float m.(n12) = true ->
             is_float m.(n13) = true ->
             is_float m.(n14) = true ->
             TransformVector3Coord v m
             = xyz_of (TransformVector4
                         (Vector4 v.(v3x) v.(v3y) v.(v3z) f1) m)).
  { intros v m H12 H13 H14.
    unfold TransformVector3Coord, TransformVector4, xyz_of, Vector3, Vector4.
    cbn [v4x v4y v4z v4w].
    rewrite !fmul_one_l by assumption. reflexivity. }
  split; [exact E|].
  intros v viewport projection view world t.
  split; [reflexivity|].
  intros H12 H13 H14. rewrite <- (E v t H12 H13 H14). reflexivity.
Qed.

Lemma TransformVector3Coord_no_divide_witness :
  (is_float coord_input.(n12) = true
   /\ is_float coord_input.(n13) = true
   /\ is_float coord_input.(n14) = true
   /\ TransformVector3Coord rt_point coord_input
      = xyz_of (TransformVector4
                  (Vector4 rt_point.(v3x) rt_point.(v3y) rt_point.(v3z) f1)
                  coord_input))
  /\ (let projection :=
        PerspectiveFovLHMatrix4 tanf_sample rt_fovy rt_aspect rt_zn rt_zf in
      let t :=
        project_matrix rt_viewport projection Matrix4_default
          Matrix4_default in
      is_float t.(n12) = true
      /\ is_float t.(n13) = true
      /\ is_float t.(n14) = true
      /\ ProjectViewport rt_point rt_viewport projection Matrix4_default
           Matrix4_default
         = xyz_of (TransformVector4
                     (Vector4 rt_point.(v3x) rt_point.(v3y) rt_point.(v3z)
                              f1) t)).
Proof.
  split.
  - split; [reflexivity|]. split; [reflexivity|]. split; [reflexivity|].
    apply (proj1 TransformVector3Coord_no_divide rt_point coord_input);
      reflexivity.
  - intros projection t.
    split; [reflexivity|]. split; [reflexivity|]. split; [reflexivity|].
    apply (proj2 TransformVector3Coord_no_divide rt_point rt_viewport
             projection Matrix4_default Matrix4_default);
      reflexivity.
Defined.

(** In that sample the fourth component is 50, and the third component of
    [ProjectViewport]'s result is the undivided 49.95. *)
Lemma ProjectViewport_sample_w :
  let projection :=
    PerspectiveFovLHMatrix4 tanf_sample rt_fovy rt_aspect rt_zn rt_zf in
  let t :=
    project_matrix rt_viewport projection Matrix4_default Matrix4_default in
  v4w (TransformVector4
         (Vector4 rt_point.(v3x) rt_point.(v3y) rt_point.(v3z) f1) t)
  = float_of_Z 50
  /\ approx rt_tol
       (v3z (ProjectViewport rt_point rt_viewport projection
               Matrix4_default Matrix4_default))
       (float_lit 4995 100) = true.
Proof. split; vm_compute; reflexivity. Qed.

(** ** Matrix inverse and determinant *)

(** The guard of [InverseMatrix4] tests the value [DeterminantMatrix4]
    returns: for every matrix for which that value compares equal to zero,
    [InverseMatrix4] returns the identity matrix [Matrix4()].
    ([InverseMatrix4] is a total function: it has no failure result.) *)
Lemma InverseMatrix4_guard (m : matrix4_t) :
  (DeterminantMatrix4 m == f0)%f32 = true ->
  InverseMatrix4 m = Matrix4_default.
Proof.
  intros H.
  cbv -[fadd fsub fmul fdiv feq f0 f1 DeterminantMatrix4].
  rewrite H. reflexivity.
Qed.

(** The all-zero matrix is such a matrix. *)
Lemma InverseMatrix4_zero_matrix :
  (DeterminantMatrix4 zero_matrix == f0)%f32 = true
  /\ InverseMatrix4 zero_matrix = Matrix4_default.
Proof.
  split; [reflexivity|].
  apply (InverseMatrix4_guard zero_matrix). reflexivity.
Qed.

(** C3.  [det_input] is singular: its rows 1 and 3 coincide and its general
    determinant is zero.  [DeterminantMatrix4] returns 2 for it, so the
    guard of [InverseMatrix4] is not taken: the result is the cofactors
    divided by 2, [[0 0 0 0; 0 1/2 0 -1/2; 0 0 0 0; 0 -1/2 0 1/2]], and not
    the identity matrix [Matrix4()]. *)
Theorem InverseMatrix4_singular_not_identity :
  row det_input 1 = row det_input 3
  /\ determinant_general det_input = f0
  /\ DeterminantMatrix4 det_input = f2
  /\ (DeterminantMatrix4 det_input == f0)%f32 = false
  /\ InverseMatrix4 det_input
     = Matrix4 f0 f0 f0 f0
               f0 (f1 / f2)%f32 f0 (- (f1 / f2))%f32
               f0 f0 f0 f0
               f0 (- (f1 / f2))%f32 f0 (f1 / f2)%f32
  /\ InverseMatrix4 det_input <> Matrix4_default.
Proof.
  repeat (split; [vm_compute; reflexivity|]).
  vm_compute. discriminate.
Qed.

(** ** Rotations *)

(** C5.  For all angles, [RotationYawPitchRollMatrix4 y p r] is the product
    [Z(r) * (X(p) * Y(y))]; with all three angles zero it is the identity
    matrix, [cosf] and [sinf] being exact at zero. *)
Theorem RotationYawPitchRollMatrix4_order (cosf sinf : float -> float) :
  (forall y p r,
      RotationYawPitchRollMatrix4 cosf sinf y p r
      = MultiplyMatrix4 (RotationZMatrix4 cosf sinf r)
          (MultiplyMatrix4 (RotationXMatrix4 cosf sinf p)
                           (RotationYMatrix4 cosf sinf y)))
  /\ (cosf f0 = f1 -> sinf f0 = f0 ->
      RotationYawPitchRollMatrix4 cosf sinf f0 f0 f0 = Matrix4_default).
Proof.
  split; [reflexivity|].
  intros Hc Hs.
  unfold RotationYawPitchRollMatrix4, RotationXMatrix4, RotationYMatrix4,
    RotationZMatrix4.
  rewrite Hc, Hs. vm_compute. reflexivity.
Qed.

Lemma RotationYawPitchRollMatrix4_order_witness :
  cosf_poly f0 = f1
  /\ sinf_poly f0 = f0
  /\ RotationYawPitchRollMatrix4 cosf_poly sinf_poly f0 f0 f0
     = Matrix4_default.
Proof.
  split; [reflexivity|]. split; [reflexivity|].
  apply (proj2 (RotationYawPitchRollMatrix4_order cosf_poly sinf_poly));
    reflexivity.
Defined.

(** [DeterminantMatrix4] adds eight products where the determinant has
    twenty-four signed ones; the matrix below has general determinant 2. *)
Lemma determinant_general_inv_input :
  determinant_general inv_input = f2 /\ DeterminantMatrix4 inv_input = f1.
Proof. split; vm_compute; reflexivity. Qed.

(** C2.  [inv_input] has a non-zero [DeterminantMatrix4], and
    [MultiplyMatrix4 inv_input (InverseMatrix4 inv_input)] is twice the
    identity matrix: its diagonal is 2, not within [1e-4] of 1.
    [inv_input'] has a non-zero [DeterminantMatrix4], equal to its general
    determinant, and entry 3 of the product is -1, not within [1e-4]
    of 0. *)
Theorem InverseMatrix4_not_inverse :
  ((DeterminantMatrix4 inv_input == f0)%f32 = false
   /\ MultiplyMatrix4 inv_input (InverseMatrix4 inv_input)
      = Matrix4 f2 f0 f0 f0  f0 f2 f0 f0  f0 f0 f2 f0  f0 f0 f0 f2
   /\ approx tol_1e4
        (n0 (MultiplyMatrix4 inv_input (InverseMatrix4 inv_input))) f1
      = false)
  /\ ((DeterminantMatrix4 inv_input' == f0)%f32 = false
      /\ DeterminantMatrix4 inv_input' = determinant_general inv_input'
      /\ n3 (InverseMatrix4 inv_input') = (- f1)%f32
      /\ n3 (MultiplyMatrix4 inv_input' (InverseMatrix4 inv_input'))
         = (- f1)%f32
      /\ approx tol_1e4
           (n3 (MultiplyMatrix4 inv_input' (InverseMatrix4 inv_input'))) f0
         = false).
Proof. repeat split; vm_compute; reflexivity. Qed.

(** C4.  [det_input] has two identical rows, its general determinant is
    zero, and [DeterminantMatrix4] returns 2 for it. *)
Theorem DeterminantMatrix4_repeated_row :
  row det_input 1 = row det_input 3
  /\ determinant_general det_input = f0
  /\ DeterminantMatrix4 det_input = f2
  /\ approx tol_1e4 (DeterminantMatrix4 det_input) f0 = false.
Proof. repeat split; vm_compute; reflexivity. Qed.

(** ** Planes *)

(** C6.  [NormalizePlane] rescales [(a, b, c)] and copies [d]: the plane
    [2x - 2 = 0] becomes [x - 2 = 0], not [x - 1 = 0], and the point
    [(1, 0, 0)] of the former is at distance 1 from the latter. *)
Theorem NormalizePlane_keeps_d :
  DotPlaneCoordinate plane_x1 point_x1 = f0
  /\ NormalizePlane plane_x1 = Plane f1 f0 f0 (- f2)%f32
  /\ DotPlaneCoordinate (NormalizePlane plane_x1) point_x1 = (- f1)%f32
  /\ approx tol_1e4 (DotPlaneCoordinate (NormalizePlane plane_x1) point_x1) f0
     = false
  /\ (forall p, pd (NormalizePlane p) = pd p).
Proof. repeat split; vm_compute; reflexivity. Qed.

(** [ReflectMatrix4] reads [d] of the normalized plane as a normalized
    distance: reflecting about the plane [2x - 2 = 0] moves the point
    [(1, 0, 0)] of that plane to [x = 3]. *)
Lemma ReflectMatrix4_plane_x1 :
  v3x (TransformVector3Coord point_x1 (ReflectMatrix4 plane_x1))
  = float_of_Z 3.
Proof. vm_compute. reflexivity. Qed.

(** C7.  The endpoints [(-1, 0, 0)] and [(1, 0, 0)] straddle the plane
    [x = 0]; [LineIntersectPlane] returns the first endpoint, which is not on
    the plane.  For the endpoints [(1, 0, 0)] and [(5, 0, 0)], on the same
    side, it returns the one farther from the plane. *)
Theorem LineIntersectPlane_straddle :
  DotPlaneCoordinate plane_x0 point_m1 = (- f1)%f32
  /\ DotPlaneCoordinate plane_x0 point_p1 = f1
  /\ LineIntersectPlane plane_x0 point_m1 point_p1 = point_m1
  /\ approx tol_1e4
       (DotPlaneCoordinate plane_x0
          (LineIntersectPlane plane_x0 point_m1 point_p1)) f0 = false
  /\ LineIntersectPlane plane_x0 point_p1 point_p5 = point_p5.
Proof. repeat split; vm_compute; reflexivity. Qed.

(** ** Viewport *)

(** The third component of [UnprojectViewport]'s result, spelled out. *)
Lemma UnprojectViewport_z (v : vector3_t) (viewport : viewport_t)
  (projection view world : matrix4_t) :
  let t :=
    MultiplyMatrix4 world
      (MultiplyMatrix4 view
         (MultiplyMatrix4 projection
            (OrthographicOffCenterLHMatrix4
               (float_of_Z viewport.(vp_x))
               (float_of_Z (uint32_add viewport.(vp_x) viewport.(vp_w)))
               (float_of_Z viewport.(vp_y))
               (float_of_Z (uint32_add viewport.(vp_y) viewport.(vp_h)))
               viewport.(minZ) viewport.(maxZ)))) in
  v3z (UnprojectViewport v viewport projection view world)
  = (v.(v3x) * t.(n2) + v.(v3y) * t.(n6) + v.(v3z) * t.(n10) + t.(n14))%f32.
Proof. reflexivity. Qed.

(** With [tanf_sample], the point [(0, 0, 50)] comes back as about
    [(-49.96, 49.93, 49.90)]: no component is within [1e-2] of the
    original. *)
Lemma ProjectUnproject_sample :
  let projection :=
    PerspectiveFovLHMatrix4 tanf_sample rt_fovy rt_aspect rt_zn rt_zf in
  let s :=
    ProjectViewport rt_point rt_viewport projection
      Matrix4_default Matrix4_default in
  let q :=
    UnprojectViewport s rt_viewport projection
      Matrix4_default Matrix4_default in
  q = Vector3 (S754_finite true 13096228 (-18))
              (S754_finite false 13088986 (-18))
              (S754_finite false 13080945 (-18))
  /\ approx rt_tol (v3x q) (v3x rt_point) = false
  /\ approx rt_tol (v3y q) (v3y rt_point) = false
  /\ approx rt_tol (v3z q) (v3z rt_point) = false.
Proof. repeat split; vm_compute; reflexivity. Qed.

(** C1.  For the viewport [(0, 0, 800, 600, 0, 1)], identity world and view
    and [PerspectiveFovLHMatrix4 (pi/4, 800/600, 0.1, 100)], whatever [tanf]
    returns: the point [(0, 0, 50)] lies between the near and the far plane
    on the view axis, and the third component of
    [UnprojectViewport (ProjectViewport p ...) ...] is not within [1e-2] of
    50. *)
Theorem ProjectUnproject_roundtrip (tanf : float -> float) :
  let projection :=
    PerspectiveFovLHMatrix4 tanf rt_fovy rt_aspect rt_zn rt_zf in
  let s :=
    ProjectViewport rt_point rt_viewport projection
      Matrix4_default Matrix4_default in
  let q :=
    UnprojectViewport s rt_viewport projection
      Matrix4_default Matrix4_default in
  (rt_zn < v3z rt_point)%f32 && (v3z rt_point < rt_zf)%f32 = true
  /\ approx rt_tol (v3z q) (v3z rt_point) = false.
Proof.
  intros projection s q. split; [reflexivity|].
  subst q. rewrite UnprojectViewport_z.
  generalize (v3x s) as a. generalize (v3y s) as b.
  subst s projection. unfold PerspectiveFovLHMatrix4.
  generalize (tanf (H_PI - rt_fovy / f2)%f32 / rt_aspect)%f32 as xS.
  generalize (tanf (H_PI - rt_fovy / f2)%f32) as yS.
  intros yS xS b a.
  destruct xS as [[|]|[|]| |[|] mx ex], yS as [[|]|[|]| |[|] my ey],
    a as [[|]|[|]| |[|] ma ea], b as [[|]|[|]| |[|] mb eb];
    vm_compute; reflexivity.
Qed.

(** ** More facts about binary32 arithmetic *)

Lemma digits2_pos_size (p : positive) : digits2_pos p = Pos.size p.
Proof. induction p; cbn; congruence. Qed.

Lemma Zdigits2_log2 (m : Z) : 0 < m -> Zdigits2 m = Z.log2 m + 1.
Proof.
  destruct m as [|p|p]; try lia. intros _.
  destruct p; cbn [Zdigits2 digits2_pos Z.log2];
    rewrite ?digits2_pos_size; lia.
Qed.

Lemma shr_1_m (r : shr_record) :
  0 <= shr_m r -> shr_m (shr_1 r) = Z.shiftr (shr_m r) 1.
Proof.
  rewrite <- Z.div2_spec.
  destruct r as [m b s]. destruct m as [|[p|p|]|p]; cbn; try lia; reflexivity.
Qed.

Lemma shr_m_iter (n : positive) :
  forall r, 0 <= shr_m r ->
            shr_m (iter_pos shr_1 n r) = Z.shiftr (shr_m r) (Zpos n).
Proof.
  induction n as [n IH|n IH|]; intros r Hr; cbn [iter_pos].
  - assert (H1 : 0 <= shr_m (shr_1 r))
      by (rewrite shr_1_m by assumption; apply Z.shiftr_nonneg; assumption).
    assert (H2 : 0 <= shr_m (iter_pos shr_1 n (shr_1 r)))
      by (rewrite IH by assumption; apply Z.shiftr_nonneg; assumption).
    rewrite IH, IH, shr_1_m by assumption.
    rewrite !Z.shiftr_shiftr by lia. f_equal. lia.
  - assert (H2 : 0 <= shr_m (iter_pos shr_1 n r))
      by (rewrite IH by assumption; apply Z.shiftr_nonneg; assumption).
    rewrite IH, IH by assumption.
    rewrite !Z.shiftr_shiftr by lia. f_equal. lia.
  - apply shr_1_m. assumption.
Qed.

Lemma shr_m_of_loc (m : Z) (l : location) : shr_m (shr_record_of_loc m l) = m.
Proof. destruct l as [|[ | | ]]; reflexivity. Qed.

(** After [shr_fexp] the mantissa is zero at the least exponent, or it is in
    canonical position. *)
Lemma shr_fexp_canonical (m e : Z) (l : location) :
  0 <= m -> e <= fexp prec emax (Zdigits2 m + e) ->
  let '(r, e') := shr_fexp prec emax m e l in
  (shr_m r = 0 /\ e' = emin prec emax)
  \/ (0 < shr_m r /\ fexp prec emax (Zdigits2 (shr_m r) + e') = e').
Proof.
  intros Hm He. unfold shr_fexp, shr.
  destruct (fexp prec emax (Zdigits2 m + e) - e) as [|p|p] eqn:En; try lia.
  - rewrite shr_m_of_loc.
    assert (Hc : fexp prec emax (Zdigits2 m + e) = e) by lia.
    destruct (Z.eq_dec m 0) as [->|Hn].
    + left. split; [reflexivity|]. cbn [Zdigits2] in Hc.
      unfold fexp, emin, prec, emax in *. lia.
    + right. split; [lia|exact Hc].
  - rewrite shr_m_iter by (rewrite shr_m_of_loc; exact Hm).
    rewrite shr_m_of_loc.
    destruct (Z.eq_dec m 0) as [->|Hn].
    + left. rewrite Z.shiftr_0_l. split; [reflexivity|].
      cbn [Zdigits2] in En. unfold fexp, emin, prec, emax in *. lia.
    + assert (Hpos : 0 < m) by lia.
      pose proof (Zdigits2_log2 m Hpos) as Hd.
      pose proof (Z.log2_nonneg m) as Hl.
      destruct (Z_lt_le_dec (Z.log2 m) (Zpos p)) as [Hlt|Hle].
      * left. split.
        -- apply Z.shiftr_eq_0; lia.
        -- unfold fexp, emin, prec, emax in *. lia.
      * right.
        assert (Hs : 0 < Z.shiftr m (Zpos p)).
        { pose proof (Z.shiftr_nonneg m (Zpos p)) as Hnn.
          destruct (Z.eq_dec (Z.shiftr m (Zpos p)) 0) as [E0|]; [|lia].
          apply Z.shiftr_eq_0_iff in E0. lia. }
        split; [exact Hs|].
        rewrite (Zdigits2_log2 _ Hs), Z.log2_shiftr by assumption.
        replace (Z.max 0 (Z.log2 m - Zpos p) + 1 + (e + Zpos p))
          with (Zdigits2 m + e) by lia.
        lia.
Qed.

Lemma round_nearest_even_cases (m : Z) (l : location) :
  round_nearest_even m l = m \/ round_nearest_even m l = m + 1.
Proof.
  destruct l as [|[ | | ]]; cbn; auto. destruct (Z.even m); auto.
Qed.

Lemma fexp_mono (a b : Z) : a <= b -> fexp prec emax a <= fexp prec emax b.
Proof. unfold fexp. lia. Qed.

Lemma Zdigits2_mono (a b : Z) : 0 <= a -> a <= b -> Zdigits2 a <= Zdigits2 b.
Proof.
  intros Ha Hab. destruct (Z.eq_dec a 0) as [->|Hn].
  - destruct b; cbn; lia.
  - rewrite !Zdigits2_log2 by lia. pose proof (Z.log2_le_mono a b Hab). lia.
Qed.

(** Rounding a mantissa that is not too short yields a float. *)
Lemma binary_round_aux_valid (s : bool) (m e : Z) (l : location) :
  0 <= m -> e <= fexp prec emax (Zdigits2 m + e) ->
  valid_binary prec emax (binary_round_aux prec emax s m e l) = true.
Proof.
  intros Hm He. unfold binary_round_aux.
  pose proof (shr_fexp_canonical m e l Hm He) as H1.
  destruct (shr_fexp prec emax m e l) as [r1 e1].
  set (m1 := round_nearest_even (shr_m r1) (loc_of_shr_record r1)).
  assert (Hm1 : shr_m r1 <= m1 <= shr_m r1 + 1)
    by (destruct (round_nearest_even_cases (shr_m r1) (loc_of_shr_record r1));
        subst m1; lia).
  assert (H0 : 0 <= shr_m r1) by lia.
  assert (He1 : e1 <= fexp prec emax (Zdigits2 m1 + e1)).
  { destruct H1 as [[_ ->]|[Hp Hc]].
    - unfold fexp. lia.
    - rewrite <- Hc at 1. apply fexp_mono.
      pose proof (Zdigits2_mono (shr_m r1) m1 H0 (proj1 Hm1)). lia. }
  pose proof (shr_fexp_canonical m1 e1 loc_Exact ltac:(lia) He1) as H2.
  destruct (shr_fexp prec emax m1 e1 loc_Exact) as [r2 e2].
  destruct (shr_m r2) as [|p|p] eqn:E2; try reflexivity.
  destruct (e2 <=? emax - prec) eqn:Eb; [|reflexivity].
  cbn [valid_binary]. unfold bounded, canonical_mantissa.
  rewrite Eb, andb_true_r. apply Z.eqb_eq.
  destruct H2 as [[Hz _]|[_ Hc]]; [discriminate|exact Hc].
Qed.

Lemma digits2_pos_iter_xO (m d : positive) :
  Zpos (digits2_pos (Pos.iter xO m d)) = Zpos (digits2_pos m) + Zpos d.
Proof.
  induction d as [|d IH] using Pos.peano_ind.
  - cbn. lia.
  - rewrite Pos.iter_succ. cbn [digits2_pos]. lia.
Qed.

Lemma binary_round_valid (s : bool) (m : positive) (e : Z) :
  valid_binary prec emax (binary_round prec emax s m e) = true.
Proof.
  unfold binary_round, shl_align.
  destruct (fexp prec emax (Zpos (digits2_pos m) + e) - e) as [|d|d] eqn:Ed;
    apply binary_round_aux_valid; cbn [Zdigits2]; try lia.
  rewrite digits2_pos_iter_xO.
  replace (Zpos (digits2_pos m) + Zpos d
           + fexp prec emax (Zpos (digits2_pos m) + e))
    with (Zpos (digits2_pos m) + e) by lia.
  lia.
Qed.

Lemma binary_normalize_valid (m e : Z) (s : bool) :
  valid_binary prec emax (binary_normalize prec emax m e s) = true.
Proof. destruct m; [reflexivity| |]; apply binary_round_valid. Qed.

(** The arithmetic operations return floats. *)
Lemma fadd_valid (x y : float) :
  is_float x = true -> is_float y = true -> is_float (x + y)%f32 = true.
Proof.
  unfold is_float, fadd.
  destruct x as [[|]|[|]| |sx mx ex], y as [[|]|[|]| |sy my ey];
    cbn [SFadd]; auto using binary_normalize_valid.
Qed.

Lemma fsub_valid (x y : float) :
  is_float x = true -> is_float y = true -> is_float (x - y)%f32 = true.
Proof.
  unfold is_float, fsub.
  destruct x as [[|]|[|]| |sx mx ex], y as [[|]|[|]| |sy my ey];
    cbn [SFsub]; auto using binary_normalize_valid.
Qed.

Lemma fneg_valid (x : float) : is_float x = true -> is_float (- x)%f32 = true.
Proof. destruct x; auto. Qed.

Lemma fmul_valid (x y : float) :
  is_float x = true -> is_float y = true -> is_float (x * y)%f32 = true.
Proof.
  unfold is_float, fmul.
  destruct x as [sx|sx| |sx mx ex], y as [sy|sy| |sy my ey];
    cbn [SFmul]; auto.
  cbn [valid_binary]. unfold bounded, canonical_mantissa.
  intros Hx Hy.
  apply andb_prop in Hx, Hy. destruct Hx as [Hx _], Hy as [Hy _].
  apply Z.eqb_eq in Hx, Hy.
  apply binary_round_aux_valid; [lia|].
  rewrite Zdigits2_log2 by lia.
  pose proof (Z.log2_mul_below (Zpos mx) (Zpos my) ltac:(lia) ltac:(lia)) as Hl.
  pose proof (Zdigits2_log2 (Zpos mx) ltac:(lia)) as Hdx.
  pose proof (Zdigits2_log2 (Zpos my) ltac:(lia)) as Hdy.
  cbn [Zdigits2] in Hdx, Hdy.
  pose proof (Z.log2_nonneg (Zpos mx)). pose proof (Z.log2_nonneg (Zpos my)).
  rewrite Pos2Z.inj_mul.
  unfold fexp, emin, prec, emax in *. lia.
Qed.

(** Multiplication and addition are commutative, bit for bit. *)
Lemma fmul_comm (x y : float) : (x * y)%f32 = (y * x)%f32.
Proof.
  unfold fmul.
  destruct x as [sx|sx| |sx mx ex], y as [sy|sy| |sy my ey]; cbn [SFmul];
    rewrite ?(xorb_comm sx sy); try reflexivity.
  rewrite (Pos.mul_comm mx my), (Z.add_comm ex ey). reflexivity.
Qed.

Lemma fadd_comm (x y : float) : (x + y)%f32 = (y + x)%f32.
Proof.
  unfold fadd.
  destruct x as [[|]|[|]| |sx mx ex], y as [[|]|[|]| |sy my ey];
    cbn [SFadd]; try reflexivity.
  rewrite (Z.min_comm ex ey), Z.add_comm. reflexivity.
Qed.

Lemma fmul_one_r (x : float) : is_float x = true -> (x * f1)%f32 = x.
Proof. intros H. rewrite fmul_comm. apply fmul_one_l. exact H. Qed.

(** Zeros and finite floats under the operations. *)
Lemma zero_mul_l (a b : float) :
  is_zero a = true -> is_finite b = true -> is_zero (a * b)%f32 = true.
Proof. destruct a, b; cbn; congruence. Qed.

Lemma zero_mul_r (a b : float) :
  is_finite a = true -> is_zero b = true -> is_zero (a * b)%f32 = true.
Proof. destruct a, b; cbn; congruence. Qed.

Lemma zero_add (a b : float) :
  is_zero a = true -> is_zero b = true -> is_zero (a + b)%f32 = true.
Proof. destruct a as [[|]| | |], b as [[|]| | |]; cbn; congruence. Qed.

Lemma zero_sub (a b : float) :
  is_zero a = true -> is_zero b = true -> is_zero (a - b)%f32 = true.
Proof. destruct a as [[|]| | |], b as [[|]| | |]; cbn; congruence. Qed.

Lemma zero_finite (a : float) : is_zero a = true -> is_finite a = true.
Proof. destruct a; cbn; congruence. Qed.

Lemma zero_float (a : float) : is_zero a = true -> is_float a = true.
Proof. destruct a; cbn; congruence. Qed.

Lemma finite_float_split (x : float) :
  finite_float x = true -> is_float x = true /\ is_finite x = true.
Proof. unfold finite_float. intros H. apply andb_prop in H. exact H. Qed.

(** [same_value] through additions and subtractions of zeros. *)
Lemma sv_refl (x : float) : same_value x x.
Proof. left. reflexivity. Qed.

Lemma sv_zero (x y : float) :
  is_zero x = true -> is_zero y = true -> same_value x y.
Proof. right. split; assumption. Qed.

Lemma sv_sym (x y : float) : same_value x y -> same_value y x.
Proof. intros [->|[H1 H2]]; [apply sv_refl|apply sv_zero; assumption]. Qed.

Lemma sv_trans (x y z : float) :
  same_value x y -> same_value y z -> same_value x z.
Proof.
  intros [->|[H1 H2]] [->|[H3 H4]];
    try (left; reflexivity); right; split; assumption.
Qed.

Lemma sv_add_zero_r (a b z : float) :
  same_value a b -> is_zero z = true -> same_value (a + z)%f32 b.
Proof.
  intros [->|[Ha Hb]] Hz.
  - destruct b as [[|]| | |], z as [[|]| | |]; cbn in *; try discriminate;
      first [left; reflexivity | right; split; reflexivity].
  - right. split; [apply zero_add; assumption|assumption].
Qed.

Lemma sv_add_zero_l (a b z : float) :
  is_zero z = true -> same_value a b -> same_value (z + a)%f32 b.
Proof. intros Hz H. rewrite fadd_comm. apply sv_add_zero_r; assumption. Qed.

Lemma sv_sub_zero_r (a b z : float) :
  same_value a b -> is_zero z = true -> same_value (a - z)%f32 b.
Proof.
  intros [->|[Ha Hb]] Hz.
  - destruct b as [[|]| | |], z as [[|]| | |]; cbn in *; try discriminate;
      first [left; reflexivity | right; split; reflexivity].
  - right. split; [apply zero_sub; assumption|assumption].
Qed.

Lemma sv_zero_sub (a b z : float) :
  is_zero z = true -> same_value a b -> same_value (z - a)%f32 (- b)%f32.
Proof.
  intros Hz [->|[Ha Hb]].
  - destruct b as [[|]|[|]| |], z as [[|]| | |]; cbn in *; try discriminate;
      first [left; reflexivity | right; split; reflexivity].
  - right. split; [apply zero_sub; assumption|].
    destruct b; cbn in *; congruence.
Qed.

Lemma sv_add_cong_l (a b x : float) :
  same_value a b -> same_value (a + x)%f32 (b + x)%f32.
Proof.
  intros [->|[Ha Hb]]; [apply sv_refl|].
  destruct a as [[|]| | |]; try discriminate;
    destruct b as [[|]| | |]; try discriminate;
    destruct x as [[|]|[|]| |]; cbn;
    first [left; reflexivity | right; split; reflexivity].
Qed.

Lemma sv_mul_one_r (a b : float) :
  same_value a b -> is_float b = true -> same_value (a * f1)%f32 b.
Proof.
  intros [->|[Ha Hb]] Hv.
  - rewrite fmul_one_r by assumption. apply sv_refl.
  - rewrite fmul_one_r by (apply zero_float; assumption).
    apply sv_zero; assumption.
Qed.

Lemma sv_mul_one_l (a b : float) :
  same_value a b -> is_float b = true -> same_value (f1 * a)%f32 b.
Proof. intros H Hv. rewrite fmul_comm. apply sv_mul_one_r; assumption. Qed.

Lemma sv_float (a b : float) :
  same_value a b -> is_float b = true -> is_float a = true.
Proof. intros [->|[Ha _]] H; [exact H|apply zero_float; exact Ha]. Qed.

(** [x == x] unless [x] is a NaN. *)
Lemma feq_refl (x : float) : is_nan x = false -> (x == x)%f32 = true.
Proof.
  unfold feq, SFeqb.
  destruct x as [[|]|[|]| |[|] m e]; cbn; try congruence; intros _;
    rewrite Z.compare_refl, Pos.compare_cont_refl; reflexivity.
Qed.

Lemma sv_feq (x y : float) :
  same_value x y -> is_nan y = false -> (x == y)%f32 = true.
Proof.
  intros [->|[Hx Hy]] Hn; [apply feq_refl; exact Hn|].
  destruct x, y; cbn in *; congruence.
Qed.

Lemma fsub_self (p : float) : (p - p)%f32 = cancelled p.
Proof.
  unfold fsub, cancelled.
  destruct p as [[|]|[|]| |s m e]; cbn [SFsub is_finite]; try reflexivity.
  rewrite Z.sub_diag. reflexivity.
Qed.

Lemma fadd_opp (p : float) : (p + - p)%f32 = cancelled p.
Proof.
  unfold fadd, fneg, cancelled.
  destruct p as [[|]|[|]| |s m e]; cbn [SFadd SFopp is_finite];
    try reflexivity.
  replace (cond_Zopp s (Zpos (fst (shl_align m e (Z.min e e))))
           + cond_Zopp (negb s) (Zpos (fst (shl_align m e (Z.min e e)))))
    with 0 by (destruct s; cbn [cond_Zopp negb]; lia).
  reflexivity.
Qed.

(** The sign of a rounded value is the sign given. *)
Lemma sign_bit_binary_round_aux (m e : Z) (l : location) :
  sign_bit (binary_round_aux prec emax false m e l) = false.
Proof.
  unfold binary_round_aux.
  destruct (shr_fexp prec emax m e l) as [r1 e1].
  destruct (shr_fexp prec emax _ e1 loc_Exact) as [r2 e2].
  destruct (shr_m r2); [reflexivity| |reflexivity].
  destruct (e2 <=? emax - prec); reflexivity.
Qed.

Lemma sign_bit_fmul_self (x : float) : sign_bit (x * x)%f32 = false.
Proof.
  unfold fmul. destruct x as [s|s| |s m e]; cbn [SFmul sign_bit];
    rewrite ?xorb_nilpotent; try reflexivity.
  apply sign_bit_binary_round_aux.
Qed.

Lemma sign_bit_fadd (x y : float) :
  sign_bit x = false -> sign_bit y = false -> sign_bit (x + y)%f32 = false.
Proof.
  unfold fadd.
  destruct x as [sx|sx| |sx mx ex], y as [sy|sy| |sy my ey];
    cbn [sign_bit]; intros Hx Hy; subst; cbn [SFadd sign_bit];
    try reflexivity.
  cbn [cond_Zopp Z.add binary_normalize]. unfold binary_round.
  destruct (shl_align _ _ _) as [mz ez]. apply sign_bit_binary_round_aux.
Qed.

Lemma sign_bit_sqrtf (x : float) :
  sign_bit x = false -> sign_bit (sqrtf x) = false.
Proof.
  unfold sqrtf.
  destruct x as [s|s| |s m e]; cbn [sign_bit]; intros Hx; subst;
    cbn [SFsqrt sign_bit]; try reflexivity.
  destruct (SFsqrt_core_binary prec emax (Zpos m) e) as [[mz ez] lz].
  apply sign_bit_binary_round_aux.
Qed.

Lemma SFcompare_antisym (x y : float) :
  SFcompare y x = option_map CompOpp (SFcompare x y).
Proof.
  destruct x as [[|]|[|]| |[|] mx ex], y as [[|]|[|]| |[|] my ey];
    cbn [SFcompare option_map CompOpp]; try reflexivity;
    rewrite (Z.compare_antisym ex ey); destruct (ex ?= ey);
    cbn [CompOpp]; try reflexivity;
    rewrite (ZC4 my mx); destruct (Pos.compare_cont Eq mx my); reflexivity.
Qed.

Lemma SFcompare_total (x y : float) :
  is_nan x = false -> is_nan y = false -> exists c, SFcompare x y = Some c.
Proof.
  destruct x as [[|]|[|]| |[|] mx ex], y as [[|]|[|]| |[|] my ey];
    cbn [is_nan SFcompare]; try discriminate; intros _ _; eexists;
    reflexivity.
Qed.

Lemma fle_refl (x : float) : is_nan x = false -> (x <= x)%f32 = true.
Proof.
  intros H. pose proof (feq_refl x H) as E.
  unfold feq, SFeqb in E. unfold fle, SFleb.
  destruct (SFcompare x x) as [[ | | ]|]; congruence.
Qed.

(** Without NaNs, [MAX a b] is an upper bound of both arguments and
    [MIN a b] a lower bound. *)
Lemma MAX_upper (a b : float) :
  is_nan a = false -> is_nan b = false ->
  (a <= MAX a b)%f32 = true /\ (b <= MAX a b)%f32 = true.
Proof.
  intros Ha Hb.
  pose proof (fle_refl a Ha) as Haa. pose proof (fle_refl b Hb) as Hbb.
  destruct (SFcompare_total b a Hb Ha) as [c Hc].
  pose proof (SFcompare_antisym b a) as Hs. rewrite Hc in Hs.
  unfold MAX, fgt, SFltb. rewrite Hc.
  destruct c; cbn [option_map CompOpp] in Hs; split; try assumption;
    unfold fle, SFleb; rewrite ?Hs, ?Hc; reflexivity.
Qed.

Lemma MIN_lower (a b : float) :
  is_nan a = false -> is_nan b = false ->
  (MIN a b <= a)%f32 = true /\ (MIN a b <= b)%f32 = true.
Proof.
  intros Ha Hb.
  pose proof (fle_refl a Ha) as Haa. pose proof (fle_refl b Hb) as Hbb.
  destruct (SFcompare_total a b Ha Hb) as [c Hc].
  pose proof (SFcompare_antisym a b) as Hs. rewrite Hc in Hs.
  unfold MIN, flt, SFltb. rewrite Hc.
  destruct c; cbn [option_map CompOpp] in Hs; split; try assumption;
    unfold fle, SFleb; rewrite ?Hs, ?Hc; reflexivity.
Qed.

(** With a NaN on either side the macros return their second argument. *)
Lemma MAX_MIN_nan (a b : float) :
  is_nan a || is_nan b = true -> MAX a b = b /\ MIN a b = b.
Proof.
  unfold MAX, MIN, fgt, flt, SFltb.
  destruct a, b; cbn; try discriminate; intros _; split; reflexivity.
Qed.

(** [same_value] is a congruence for addition and multiplication. *)
Lemma sv_add_cong (a b c d : float) :
  same_value a b -> same_value c d -> same_value (a + c)%f32 (b + d)%f32.
Proof.
  intros [->|[Ha Hb]] [->|[Hc Hd]].
  - apply sv_refl.
  - apply sv_sym, sv_add_zero_r; [|assumption].
    apply sv_sym, sv_add_zero_r; [apply sv_refl|assumption].
  - rewrite (fadd_comm a), (fadd_comm b).
    apply sv_sym, sv_add_zero_r; [|assumption].
    apply sv_sym, sv_add_zero_r; [apply sv_refl|assumption].
  - apply sv_zero; apply zero_add; assumption.
Qed.

Lemma sv_mul_cong_r (x a b : float) :
  same_value a b -> same_value (x * a)%f32 (x * b)%f32.
Proof.
  intros [->|[Ha Hb]]; [apply sv_refl|].
  destruct a as [[|]| | |]; try discriminate;
    destruct b as [[|]| | |]; try discriminate;
    destruct x as [[|]|[|]| |[|] m e]; cbn;
    first [left; reflexivity | right; split; reflexivity].
Qed.

Lemma sv_nonzero (x y : float) :
  same_value x y -> is_zero y = false -> x = y.
Proof. intros [->|[_ H]] Hn; [reflexivity|congruence]. Qed.

(** The facts the proof automation below applies, grouped by the shape of
    the goal. *)
Lemma zero_mul (z x : float) :
  is_zero z = true -> is_finite x = true ->
  is_zero (z * x)%f32 = true /\ is_zero (x * z)%f32 = true.
Proof. intros Hz Hx. split; [apply zero_mul_l|apply zero_mul_r]; assumption. Qed.

Lemma zero_ops (a b : float) :
  is_zero a = true -> is_zero b = true ->
  is_zero (a + b)%f32 = true /\ is_zero (a - b)%f32 = true
  /\ is_zero (a * b)%f32 = true.
Proof.
  intros Ha Hb. split; [apply zero_add; assumption|].
  split; [apply zero_sub; assumption|].
  apply zero_mul_l; [assumption|apply zero_finite; assumption].
Qed.

Lemma arith_valid (x y : float) :
  is_float x = true -> is_float y = true ->
  is_float (x + y)%f32 = true /\ is_float (x - y)%f32 = true
  /\ is_float (x * y)%f32 = true /\ is_float (- x)%f32 = true.
Proof.
  intros Hx Hy. split; [apply fadd_valid; assumption|].
  split; [apply fsub_valid; assumption|].
  split; [apply fmul_valid; assumption|apply fneg_valid; assumption].
Qed.

Lemma sv_zero_ops (a b z : float) :
  same_value a b -> is_zero z = true ->
  same_value (a + z)%f32 b /\ same_value (z + a)%f32 b
  /\ same_value (a - z)%f32 b /\ same_value (z - a)%f32 (- b)%f32.
Proof.
  intros H Hz. split; [apply sv_add_zero_r; assumption|].
  split; [apply sv_add_zero_l; assumption|].
  split; [apply sv_sub_zero_r; assumption|apply sv_zero_sub; assumption].
Qed.

Lemma sv_mul_one (a b : float) :
  same_value a b -> is_float b = true ->
  same_value (a * f1)%f32 b /\ same_value (f1 * a)%f32 b.
Proof.
  intros H Hv. split; [apply sv_mul_one_r|apply sv_mul_one_l]; assumption.
Qed.

(** ** Proof automation *)

Ltac zero_tac :=
  first
    [ assumption
    | reflexivity
    | apply (fun z x Hz Hx => proj2 (zero_mul z x Hz Hx));
      [zero_tac | fin_tac]
    | apply (fun z x Hz Hx => proj1 (zero_mul z x Hz Hx));
      [zero_tac | fin_tac]
    | apply (fun a b Ha Hb => proj1 (zero_ops a b Ha Hb)); zero_tac
    | apply (fun a b Ha Hb => proj1 (proj2 (zero_ops a b Ha Hb))); zero_tac
    | apply (fun a b Ha Hb => proj2 (proj2 (zero_ops a b Ha Hb))); zero_tac ]
with fin_tac :=
  first
    [ assumption
    | reflexivity
    | rewrite fmul_one_r by val_tac; fin_tac
    | rewrite fmul_one_l by val_tac; fin_tac ]
with val_tac :=
  first
    [ assumption
    | reflexivity
    | apply (fun x Hx =>
               proj2 (proj2 (proj2 (arith_valid x f0 Hx eq_refl))));
      val_tac
    | apply (fun x y Hx Hy =>
               proj1 (proj2 (proj2 (arith_valid x y Hx Hy)))); val_tac
    | apply (fun x y Hx Hy => proj1 (arith_valid x y Hx Hy)); val_tac
    | apply (fun x y Hx Hy => proj1 (proj2 (arith_valid x y Hx Hy)));
      val_tac ].

Ltac sv_tac :=
  first
    [ apply sv_refl
    | apply (fun a b H Hv => proj1 (sv_mul_one a b H Hv));
      [sv_tac | val_tac]
    | apply (fun a b H Hv => proj2 (sv_mul_one a b H Hv));
      [sv_tac | val_tac]
    | apply (fun a b z H Hz => proj1 (sv_zero_ops a b z H Hz));
      [sv_tac | zero_tac]
    | apply (fun a b z H Hz => proj1 (proj2 (sv_zero_ops a b z H Hz)));
      [sv_tac | zero_tac]
    | apply (fun a b z H Hz =>
               proj1 (proj2 (proj2 (sv_zero_ops a b z H Hz))));
      [sv_tac | zero_tac]
    | apply (fun a b z H Hz =>
               proj2 (proj2 (proj2 (sv_zero_ops a b z H Hz))));
      [sv_tac | zero_tac]
    | apply sv_zero; zero_tac ].

(** Splits [forallb finite_float (x :: ...) = true] into its facts. *)
Ltac split_finite H :=
  cbn [forallb entries coords3 n0 n1 n2 n3 n4 n5 n6 n7 n8 n9 n10 n11 n12 n13
       n14 n15 v3x v3y v3z] in H;
  repeat match type of H with
         | (_ && _) = true =>
             let H1 := fresh "F" in
             apply andb_prop in H; destruct H as [H1 H];
             try (apply finite_float_split in H1;
                  let V := fresh "V" in destruct H1 as [V H1])
         end.

(** Sums of products that differ by the order of the factors. *)
Ltac comm_tac :=
  lazymatch goal with
  | |- fadd _ _ = fadd _ _ => apply (f_equal2 fadd); comm_tac
  | |- fmul _ _ = fmul _ _ => apply fmul_comm
  end.

(** ** Further properties: matrices *)

Lemma mkMatrix4_ext
  (a0 a1 a2 a3 a4 a5 a6 a7 a8 a9 a10 a11 a12 a13 a14 a15
   b0 b1 b2 b3 b4 b5 b6 b7 b8 b9 b10 b11 b12 b13 b14 b15 : float) :
  a0 = b0 -> a1 = b1 -> a2 = b2 -> a3 = b3 ->
  a4 = b4 -> a5 = b5 -> a6 = b6 -> a7 = b7 ->
  a8 = b8 -> a9 = b9 -> a10 = b10 -> a11 = b11 ->
  a12 = b12 -> a13 = b13 -> a14 = b14 -> a15 = b15 ->
  mkMatrix4 a0 a1 a2 a3 a4 a5 a6 a7 a8 a9 a10 a11 a12 a13 a14 a15
  = mkMatrix4 b0 b1 b2 b3 b4 b5 b6 b7 b8 b9 b10 b11 b12 b13 b14 b15.
Proof. intros. subst. reflexivity. Qed.

(** X1.  [TransposeMatrix4] is an involution, exactly. *)
Theorem TransposeMatrix4_involutive (m : matrix4_t) :
  TransposeMatrix4 (TransposeMatrix4 m) = m.
Proof. destruct m. reflexivity. Qed.

(** X2.  The transpose of a product is the product of the transposes in
    reverse order, bit for bit. *)
Theorem TransposeMatrix4_MultiplyMatrix4 (a b : matrix4_t) :
  TransposeMatrix4 (MultiplyMatrix4 a b)
  = MultiplyMatrix4 (TransposeMatrix4 b) (TransposeMatrix4 a).
Proof.
  destruct a, b.
  cbv -[fmul fadd].
  apply mkMatrix4_ext; comm_tac.
Qed.

Lemma Forall2_same_value_feq (l1 l2 : list float) :
  Forall2 same_value l1 l2 ->
  forallb finite_float l2 = true ->
  forallb (fun p => feq (fst p) (snd p)) (combine l1 l2) = true.
Proof.
  induction 1 as [|x y l1 l2 Hxy _ IH]; [reflexivity|].
  cbn [forallb combine fst snd]. intros H.
  apply andb_prop in H. destruct H as [Hy Hl].
  rewrite IH by assumption. rewrite sv_feq; [reflexivity|assumption|].
  unfold finite_float in Hy. destruct y; cbn in *; congruence.
Qed.

(** X3.  [Matrix4()] is a left and right identity of [MultiplyMatrix4] on
    matrices of finite floats: every entry of the product is the entry of
    the matrix, except possibly for the sign of a zero, so the two compare
    equal entry by entry. *)
Theorem MultiplyMatrix4_identity (m : matrix4_t) :
  forallb finite_float (entries m) = true ->
  Forall2 same_value (entries (MultiplyMatrix4 m Matrix4_default)) (entries m)
  /\ Forall2 same_value (entries (MultiplyMatrix4 Matrix4_default m))
       (entries m)
  /\ matrix_feq (MultiplyMatrix4 m Matrix4_default) m = true
  /\ matrix_feq (MultiplyMatrix4 Matrix4_default m) m = true.
Proof.
  intros H.
  assert (R : Forall2 same_value
                (entries (MultiplyMatrix4 m Matrix4_default)) (entries m)).
  { destruct m. split_finite H.
    cbv -[fmul fadd f0 f1 same_value].
    repeat (apply Forall2_cons; [sv_tac|]). apply Forall2_nil. }
  assert (L : Forall2 same_value
                (entries (MultiplyMatrix4 Matrix4_default m)) (entries m)).
  { destruct m. split_finite H.
    cbv -[fmul fadd f0 f1 same_value].
    repeat (apply Forall2_cons; [sv_tac|]). apply Forall2_nil. }
  split; [exact R|]. split; [exact L|].
  split; apply Forall2_same_value_feq; assumption.
Qed.

Lemma MultiplyMatrix4_identity_witness :
  forallb finite_float (entries coord_input) = true
  /\ matrix_feq (MultiplyMatrix4 coord_input Matrix4_default) coord_input
     = true.
Proof.
  split; [reflexivity|].
  apply (MultiplyMatrix4_identity coord_input). reflexivity.
Defined.

(** X4.  [TranslationMatrix4 x y z] moves a point of finite coordinates by
    [(x, y, z)]: transforming [v] gives [v + (x, y, z)], except possibly
    for the sign of a zero. *)
Theorem TranslationMatrix4_translates (v : vector3_t) (x y z : float) :
  forallb finite_float (coords3 v) = true ->
  Forall2 same_value
    (coords3 (TransformVector3Coord v (TranslationMatrix4 x y z)))
    (coords3 (AddVector3 v (Vector3 x y z))).
Proof.
  intros H. destruct v. split_finite H.
  cbv -[fmul fadd f0 f1 same_value].
  repeat (apply Forall2_cons; [apply sv_add_cong_l; sv_tac|]).
  apply Forall2_nil.
Qed.

Lemma TranslationMatrix4_translates_witness :
  forallb finite_float (coords3 rt_point) = true
  /\ Forall2 same_value
       (coords3 (TransformVector3Coord rt_point
                   (TranslationMatrix4 f1 f2 f1)))
       (coords3 (AddVector3 rt_point (Vector3 f1 f2 f1))).
Proof.
  split; [reflexivity|].
  apply (TranslationMatrix4_translates rt_point f1 f2 f1). reflexivity.
Defined.

(** X5.  [ScalingMatrix4 x y z] scales a point of finite coordinates
    component by component: transforming [v] gives
    [(v.x * x, v.y * y, v.z * z)], except possibly for the sign of a
    zero. *)
Theorem ScalingMatrix4_scales (v : vector3_t) (x y z : float) :
  forallb finite_float (coords3 v) = true ->
  Forall2 same_value
    (coords3 (TransformVector3Coord v (ScalingMatrix4 x y z)))
    ((v.(v3x) * x)%f32 :: (v.(v3y) * y)%f32 :: (v.(v3z) * z)%f32 :: nil).
Proof.
  intros H. destruct v. split_finite H.
  cbv -[fmul fadd f0 f1 same_value].
  repeat (apply Forall2_cons; [sv_tac|]).
  apply Forall2_nil.
Qed.

Lemma ScalingMatrix4_scales_witness :
  forallb finite_float (coords3 rt_point) = true
  /\ Forall2 same_value
       (coords3 (TransformVector3Coord rt_point (ScalingMatrix4 f2 f2 f2)))
       ((rt_point.(v3x) * f2)%f32 :: (rt_point.(v3y) * f2)%f32
        :: (rt_point.(v3z) * f2)%f32 :: nil).
Proof.
  split; [reflexivity|].
  apply (ScalingMatrix4_scales rt_point f2 f2 f2). reflexivity.
Defined.

(** On a translation matrix of finite offsets [DeterminantMatrix4] is
    exactly 1. *)
Lemma DeterminantMatrix4_TranslationMatrix4 (x y z : float) :
  finite_float x = true -> finite_float y = true -> finite_float z = true ->
  DeterminantMatrix4 (TranslationMatrix4 x y z) = f1.
Proof.
  intros Hx Hy Hz.
  apply finite_float_split in Hx, Hy, Hz.
  destruct Hx as [Vx Fx], Hy as [Vy Fy], Hz as [Vz Fz].
  apply sv_nonzero; [|reflexivity].
  cbv -[fmul fadd fsub f0 f1 same_value].
  sv_tac.
Qed.

(** X6.  [InverseMatrix4] inverts translations: for finite offsets the
    inverse of [TranslationMatrix4 x y z] is [TranslationMatrix4 (-x) (-y)
    (-z)], except possibly for the sign of a zero. *)
Theorem InverseMatrix4_TranslationMatrix4 (x y z : float) :
  finite_float x = true -> finite_float y = true -> finite_float z = true ->
  Forall2 same_value
    (entries (InverseMatrix4 (TranslationMatrix4 x y z)))
    (entries (TranslationMatrix4 (- x) (- y) (- z))%f32).
Proof.
  intros Hx Hy Hz.
  pose proof (DeterminantMatrix4_TranslationMatrix4 x y z Hx Hy Hz) as D.
  apply finite_float_split in Hx, Hy, Hz.
  destruct Hx as [Vx Fx], Hy as [Vy Fy], Hz as [Vz Fz].
  cbv -[fadd fsub fmul fdiv feq fneg f0 f1 same_value DeterminantMatrix4
        TranslationMatrix4].
  rewrite D.
  replace (f1 == f0)%f32 with false by reflexivity.
  replace (f1 / f1)%f32 with f1 by reflexivity.
  cbv -[fadd fsub fmul fdiv feq fneg f0 f1 same_value].
  repeat (apply Forall2_cons; [sv_tac|]).
  apply Forall2_nil.
Qed.

Lemma InverseMatrix4_TranslationMatrix4_witness :
  finite_float f5 = true
  /\ finite_float (- f1)%f32 = true
  /\ finite_float f2 = true
  /\ Forall2 same_value
       (entries (InverseMatrix4 (TranslationMatrix4 f5 (- f1) f2)%f32))
       (entries (TranslationMatrix4 (- f5) (- - f1) (- f2))%f32).
Proof.
  split; [reflexivity|]. split; [reflexivity|]. split; [reflexivity|].
  apply (InverseMatrix4_TranslationMatrix4 f5 (- f1)%f32 f2); reflexivity.
Defined.

(** X7.  On the matrices it is right for: [DeterminantMatrix4] of a
    translation by finite offsets is exactly 1, and of a scaling by finite
    factors it is [x * y * z], except possibly for the sign of a zero. *)
Theorem DeterminantMatrix4_builders (x y z : float) :
  finite_float x = true -> finite_float y = true -> finite_float z = true ->
  DeterminantMatrix4 (TranslationMatrix4 x y z) = f1
  /\ same_value (DeterminantMatrix4 (ScalingMatrix4 x y z)) (x * y * z)%f32.
Proof.
  intros Hx Hy Hz. split.
  - apply DeterminantMatrix4_TranslationMatrix4; assumption.
  - apply finite_float_split in Hx, Hy, Hz.
    destruct Hx as [Vx Fx], Hy as [Vy Fy], Hz as [Vz Fz].
    cbv -[fmul fadd fsub f0 f1 same_value].
    sv_tac.
Qed.

Lemma DeterminantMatrix4_builders_witness :
  finite_float f5 = true
  /\ finite_float (- f1)%f32 = true
  /\ finite_float f2 = true
  /\ DeterminantMatrix4 (TranslationMatrix4 f5 (- f1) f2)%f32 = f1.
Proof.
  split; [reflexivity|]. split; [reflexivity|]. split; [reflexivity|].
  apply (DeterminantMatrix4_builders f5 (- f1)%f32 f2); reflexivity.
Defined.

(** X8.  Translations compose by adding their offsets: for finite offsets
    the product of two translation matrices is the translation by the sums,
    except possibly for the sign of a zero. *)
Theorem MultiplyMatrix4_TranslationMatrix4 (x1 y1 z1 x2 y2 z2 : float) :
  forallb finite_float (x1 :: y1 :: z1 :: x2 :: y2 :: z2 :: nil) = true ->
  Forall2 same_value
    (entries (MultiplyMatrix4 (TranslationMatrix4 x1 y1 z1)
                (TranslationMatrix4 x2 y2 z2)))
    (entries (TranslationMatrix4 (x1 + x2) (y1 + y2) (z1 + z2))%f32).
Proof.
  intros H. split_finite H.
  cbv -[fmul fadd f0 f1 same_value].
  repeat (apply Forall2_cons;
          [first [ sv_tac
                 | rewrite (fmul_one_l x2) by assumption;
                   apply sv_add_cong_l; sv_tac
                 | rewrite (fmul_one_l y2) by assumption;
                   apply sv_add_cong_l; sv_tac
                 | rewrite (fmul_one_l z2) by assumption;
                   apply sv_add_cong_l; sv_tac ]|]).
  apply Forall2_nil.
Qed.

Lemma MultiplyMatrix4_TranslationMatrix4_witness :
  forallb finite_float (f5 :: f1 :: f2 :: f2 :: f5 :: f1 :: nil) = true
  /\ Forall2 same_value
       (entries (MultiplyMatrix4 (TranslationMatrix4 f5 f1 f2)
                   (TranslationMatrix4 f2 f5 f1)))
       (entries (TranslationMatrix4 (f5 + f2) (f1 + f5) (f2 + f1))%f32).
Proof.
  split; [reflexivity|].
  apply (MultiplyMatrix4_TranslationMatrix4 f5 f1 f2 f2 f5 f1). reflexivity.
Defined.

(** X9.  Scalings compose by multiplying their factors: for finite factors
    the product of two scaling matrices is the scaling by the products,
    except possibly for the sign of a zero. *)
Theorem MultiplyMatrix4_ScalingMatrix4 (x1 y1 z1 x2 y2 z2 : float) :
  forallb finite_float (x1 :: y1 :: z1 :: x2 :: y2 :: z2 :: nil) = true ->
  Forall2 same_value
    (entries (MultiplyMatrix4 (ScalingMatrix4 x1 y1 z1)
                (ScalingMatrix4 x2 y2 z2)))
    (entries (ScalingMatrix4 (x1 * x2) (y1 * y2) (z1 * z2))%f32).
Proof.
  intros H. split_finite H.
  cbv -[fmul fadd f0 f1 same_value].
  repeat (apply Forall2_cons; [sv_tac|]).
  apply Forall2_nil.
Qed.

Lemma MultiplyMatrix4_ScalingMatrix4_witness :
  forallb finite_float (f5 :: f1 :: f2 :: f2 :: f5 :: f1 :: nil) = true
  /\ Forall2 same_value
       (entries (MultiplyMatrix4 (ScalingMatrix4 f5 f1 f2)
                   (ScalingMatrix4 f2 f5 f1)))
       (entries (ScalingMatrix4 (f5 * f2) (f1 * f5) (f2 * f1))%f32).
Proof.
  split; [reflexivity|].
  apply (MultiplyMatrix4_ScalingMatrix4 f5 f1 f2 f2 f5 f1). reflexivity.
Defined.

(** X10.  Products of builders act in the order they are written, the left
    factor first: for finite arguments, transforming [v] by
    [Scaling * Translation] scales and then translates,
    [v * s + t], while [Translation * Scaling] translates and then scales,
    [v * s + t * s]; both except possibly for the sign of a zero. *)
Theorem MultiplyMatrix4_left_factor_first
  (v : vector3_t) (sx sy sz tx ty tz : float) :
  forallb finite_float (coords3 v) = true ->
  forallb finite_float (sx :: sy :: sz :: tx :: ty :: tz :: nil) = true ->
  Forall2 same_value
    (coords3 (TransformVector3Coord v
                (MultiplyMatrix4 (ScalingMatrix4 sx sy sz)
                   (TranslationMatrix4 tx ty tz))))
    ((v.(v3x) * sx + tx)%f32 :: (v.(v3y) * sy + ty)%f32
     :: (v.(v3z) * sz + tz)%f32 :: nil)
  /\ Forall2 same_value
       (coords3 (TransformVector3Coord v
                   (MultiplyMatrix4 (TranslationMatrix4 tx ty tz)
                      (ScalingMatrix4 sx sy sz))))
       ((v.(v3x) * sx + tx * sx)%f32 :: (v.(v3y) * sy + ty * sy)%f32
        :: (v.(v3z) * sz + tz * sz)%f32 :: nil).
Proof.
  intros Hv H. destruct v. split_finite Hv. split_finite H.
  split; cbv -[fmul fadd f0 f1 same_value];
    repeat
      (apply Forall2_cons;
       [let rec go :=
          first
            [ apply sv_refl
            | apply (fun a b H Hv => proj1 (sv_mul_one a b H Hv));
              [go | val_tac]
            | apply (fun a b H Hv => proj2 (sv_mul_one a b H Hv));
              [go | val_tac]
            | apply (fun a b z H Hz => proj1 (sv_zero_ops a b z H Hz));
              [go | zero_tac]
            | apply (fun a b z H Hz =>
                       proj1 (proj2 (sv_zero_ops a b z H Hz)));
              [go | zero_tac]
            | apply sv_mul_cong_r; go
            | apply sv_add_cong; go
            | apply sv_zero; zero_tac ]
        in go|]);
    apply Forall2_nil.
Qed.

Lemma MultiplyMatrix4_left_factor_first_witness :
  forallb finite_float (coords3 rt_point) = true
  /\ forallb finite_float (f2 :: f2 :: f2 :: f5 :: f1 :: f1 :: nil) = true
  /\ Forall2 same_value
       (coords3 (TransformVector3Coord rt_point
                   (MultiplyMatrix4 (ScalingMatrix4 f2 f2 f2)
                      (TranslationMatrix4 f5 f1 f1))))
       ((rt_point.(v3x) * f2 + f5)%f32 :: (rt_point.(v3y) * f2 + f1)%f32
        :: (rt_point.(v3z) * f2 + f1)%f32 :: nil).
Proof.
  split; [reflexivity|]. split; [reflexivity|].
  apply (proj1 (MultiplyMatrix4_left_factor_first rt_point f2 f2 f2 f5 f1 f1
                  eq_refl eq_refl)).
Defined.

(** ** Further properties: vectors and planes *)

(** X11.  The dot products are commutative, bit for bit. *)
Theorem DotVector_comm :
  (forall a b : vector2_t, DotVector2 a b = DotVector2 b a)
  /\ (forall a b : vector3_t, DotVector3 a b = DotVector3 b a)
  /\ (forall a b : vector4_t, DotVector4 a b = DotVector4 b a).
Proof.
  repeat split; intros a b;
    unfold DotVector2, DotVector3, DotVector4; comm_tac.
Qed.

(** X12.  Where every operation is rounded (no contraction), the cross
    product of a vector with itself is the zero vector, each component
    being NaN instead when the product it cancels is infinite or NaN, and
    likewise the 2d winding of a vector with itself.  The result depends on
    that: where one product is fused into the subtraction, the result is
    the rounding error of the other product, and for [(0.1, 0.2, 0.3)] and
    [(0.1, 0.2)] no component is zero. *)
Theorem CrossVector3_self :
  (forall a b : vector3_t, CrossVector3_under rounded_each a b
                           = CrossVector3 a b)
  /\ (forall a b : vector2_t,
         CounterClockwiseWindingVector2_under rounded_each a b
         = CounterClockwiseWindingVector2 a b)
  /\ (forall a : vector3_t,
         CrossVector3_under rounded_each a a
         = Vector3 (cancelled (a.(v3y) * a.(v3z))%f32)
                   (cancelled (a.(v3z) * a.(v3x))%f32)
                   (cancelled (a.(v3x) * a.(v3y))%f32))
  /\ (forall b : vector2_t,
         CounterClockwiseWindingVector2_under rounded_each b b
         = cancelled (b.(v2x) * b.(v2y))%f32)
  /\ CrossVector3_under fused_first tenths3 tenths3
     = Vector3 (S754_finite false 16106128 (-54))
               (S754_finite false 16106128 (-55))
               (S754_finite true 14763950 (-54))
  /\ CrossVector3_under fused_second tenths3 tenths3
     = Vector3 (S754_finite true 16106128 (-54))
               (S754_finite true 16106128 (-55))
               (S754_finite false 14763950 (-54))
  /\ CounterClockwiseWindingVector2_under fused_first tenths2 tenths2
     = S754_finite true 14763950 (-54)
  /\ CounterClockwiseWindingVector2_under fused_second tenths2 tenths2
     = S754_finite false 14763950 (-54).
Proof.
  split; [reflexivity|]. split; [reflexivity|].
  split; [|split].
  - intros a. unfold CrossVector3_under, mul_sub_mul, Vector3.
    rewrite (fmul_comm a.(v3z) a.(v3y)), (fmul_comm a.(v3x) a.(v3z)),
      (fmul_comm a.(v3y) a.(v3x)).
    rewrite !fsub_self. reflexivity.
  - intros b. unfold CounterClockwiseWindingVector2_under, mul_sub_mul.
    rewrite (fmul_comm b.(v2y) b.(v2x)). apply fsub_self.
  - repeat split; vm_compute; reflexivity.
Qed.

(** X13.  The length of a vector is never negative and never [-0]: the
    result is unsigned, whatever the components are. *)
Theorem LengthVector_unsigned :
  (forall a : vector2_t, sign_bit (LengthVector2 a) = false)
  /\ (forall a : vector3_t, sign_bit (LengthVector3 a) = false)
  /\ (forall a : vector4_t, sign_bit (LengthVector4 a) = false).
Proof.
  repeat split; intros a;
    unfold LengthVector2, LengthVector3, LengthVector4,
      DotVector2, DotVector3, DotVector4;
    apply sign_bit_sqrtf;
    repeat apply sign_bit_fadd; apply sign_bit_fmul_self.
Qed.

(** X14.  [NormalizeVector3] guards against a zero vector, not against a
    zero length.  When every component compares equal to zero the result is
    [(0, 0, 0)].  When a component differs from zero but the squared length
    underflows to zero, the components are multiplied by [1 / 0 = +inf]. *)
Theorem NormalizeVector3_zero_length (a : vector3_t) :
  ((a.(v3x) == f0)%f32 = true -> (a.(v3y) == f0)%f32 = true ->
   (a.(v3z) == f0)%f32 = true ->
   NormalizeVector3 a = Vector3 f0 f0 f0)
  /\ ((a.(v3x) != f0)%f32 || (a.(v3y) != f0)%f32 || (a.(v3z) != f0)%f32
      = true ->
      is_zero (DotVector3 a a) = true ->
      NormalizeVector3 a
      = Vector3 (a.(v3x) * pos_inf)%f32 (a.(v3y) * pos_inf)%f32
                (a.(v3z) * pos_inf)%f32).
Proof.
  split.
  - intros Hx Hy Hz. unfold NormalizeVector3, fne. fold (feq a.(v3x) f0).
    unfold feq in *. rewrite Hx, Hy, Hz. reflexivity.
  - intros Hc Hz. unfold NormalizeVector3. rewrite Hc.
    assert (Hs : sign_bit (DotVector3 a a) = false)
      by (unfold DotVector3; repeat apply sign_bit_fadd;
          apply sign_bit_fmul_self).
    destruct (DotVector3 a a) as [[|]| | |]; try discriminate.
    reflexivity.
Qed.

Lemma NormalizeVector3_zero_length_witness :
  let a := Vector3 tiny f0 f0 in
  ((a.(v3x) != f0)%f32 || (a.(v3y) != f0)%f32 || (a.(v3z) != f0)%f32 = true)
  /\ is_zero (DotVector3 a a) = true
  /\ NormalizeVector3 a = Vector3 pos_inf S754_nan S754_nan.
Proof.
  intros a. split; [reflexivity|]. split; [reflexivity|].
  apply (proj2 (NormalizeVector3_zero_length a)); reflexivity.
Defined.

(** X15.  [NormalizeVector4] returns the zero vector for every argument:
    its guard tests the freshly zeroed result instead of the argument. *)
Theorem NormalizeVector4_always_zero (a : vector4_t) :
  NormalizeVector4 a = Vector4 f0 f0 f0 f0.
Proof. reflexivity. Qed.



(** X17.  Without NaN components [MaximizeVector3 a b] is, component by
    component, an upper bound of [a] and [b], and [MinimizeVector3 a b] a
    lower bound.  Where a component of either vector is a NaN, both take the
    component of [b]. *)
Theorem MaximizeVector3_bounds (a b : vector3_t) :
  (forallb (fun x => negb (is_nan x)) (coords3 a ++ coords3 b) = true ->
   vector3_le a (MaximizeVector3 a b) = true
   /\ vector3_le b (MaximizeVector3 a b) = true
   /\ vector3_le (MinimizeVector3 a b) a = true
   /\ vector3_le (MinimizeVector3 a b) b = true)
  /\ (forall i : nat,
         is_nan (nth i (coords3 a) f0) || is_nan (nth i (coords3 b) f0)
         = true ->
         nth i (coords3 (MaximizeVector3 a b)) f0 = nth i (coords3 b) f0
         /\ nth i (coords3 (MinimizeVector3 a b)) f0
            = nth i (coords3 b) f0).
Proof.
  destruct a as [ax ay az], b as [bx by_ bz]. split.
  - cbn [forallb coords3 app v3x v3y v3z]. intros H.
    repeat match type of H with
           | (_ && _) = true =>
               let N := fresh "N" in
               apply andb_prop in H; destruct H as [N H];
               apply negb_true_iff in N
           end.
    unfold vector3_le, MaximizeVector3, MinimizeVector3.
    cbn [v3x v3y v3z].
    destruct (MAX_upper ax bx) as [-> ->]; try assumption.
    destruct (MAX_upper ay by_) as [-> ->]; try assumption.
    destruct (MAX_upper az bz) as [-> ->]; try assumption.
    destruct (MIN_lower ax bx) as [-> ->]; try assumption.
    destruct (MIN_lower ay by_) as [-> ->]; try assumption.
    destruct (MIN_lower az bz) as [-> ->]; try assumption.
    repeat split.
  - intros [|[|[|i]]]; cbn [nth coords3 MaximizeVector3 MinimizeVector3
                             v3x v3y v3z];
      try apply MAX_MIN_nan.
    destruct i; discriminate.
Qed.

Lemma MaximizeVector3_bounds_witness :
  forallb (fun x => negb (is_nan x)) (coords3 point_m1 ++ coords3 rt_point)
  = true
  /\ vector3_le point_m1 (MaximizeVector3 point_m1 rt_point) = true.
Proof.
  split; [reflexivity|].
  apply (proj1 (MaximizeVector3_bounds point_m1 rt_point)). reflexivity.
Defined.

(** The point a plane is built from satisfies the plane equation up to the
    cancellation of the dot product with its own opposite. *)
Lemma plane_through_point (point normal : vector3_t) :
  forallb is_float (coords3 point) = true ->
  forallb is_float (coords3 normal) = true ->
  DotPlaneCoordinate (FromPointNormalPlane point normal) point
  = cancelled (DotVector3 normal point).
Proof.
  intros Hp Hn. destruct point as [px py pz], normal as [nx ny nz].
  cbn [forallb coords3 v3x v3y v3z] in Hp, Hn.
  repeat match goal with
         | H : (_ && _) = true |- _ =>
             apply andb_prop in H; destruct H as [? H]
         end.
  unfold DotPlaneCoordinate, FromPointNormalPlane, DotVector4, Vector4.
  cbn [pa pb pc pd v3x v3y v3z v4x v4y v4z v4w].
  rewrite fmul_one_r by (unfold DotVector3; cbn [v3x v3y v3z]; val_tac).
  apply fadd_opp.
Qed.

(** X18.  The point a plane is built from lies on it exactly:
    [DotPlaneCoordinate (FromPointNormalPlane point normal) point] is [+0],
    or NaN when the dot product of normal and point is infinite or NaN. *)
Theorem FromPointNormalPlane_contains_point (point normal : vector3_t) :
  forallb is_float (coords3 point) = true ->
  forallb is_float (coords3 normal) = true ->
  DotPlaneCoordinate (FromPointNormalPlane point normal) point
  = cancelled (DotVector3 normal point)
  /\ (is_finite (DotVector3 normal point) = true ->
      DotPlaneCoordinate (FromPointNormalPlane point normal) point = f0).
Proof.
  intros Hp Hn. rewrite plane_through_point by assumption.
  split; [reflexivity|]. unfold cancelled. intros ->. reflexivity.
Qed.

Lemma FromPointNormalPlane_contains_point_witness :
  forallb is_float (coords3 point_p5) = true
  /\ forallb is_float (coords3 rt_point) = true
  /\ DotPlaneCoordinate (FromPointNormalPlane point_p5 rt_point) point_p5
     = f0.
Proof.
  split; [reflexivity|]. split; [reflexivity|].
  apply (proj2 (FromPointNormalPlane_contains_point point_p5 rt_point
                  eq_refl eq_refl)).
  reflexivity.
Defined.

(** X19.  The first of the three points a plane is built from lies on it
    exactly: [DotPlaneCoordinate (FromPointsPlane v0 v1 v2) v0] is [+0], or
    NaN when the dot product of the computed normal and [v0] is infinite or
    NaN. *)
Theorem FromPointsPlane_contains_first (v0 v1 v2 : vector3_t) :
  forallb is_float (coords3 v0) = true ->
  forallb is_float (coords3 v1) = true ->
  forallb is_float (coords3 v2) = true ->
  DotPlaneCoordinate (FromPointsPlane v0 v1 v2) v0
  = cancelled
      (DotVector3
         (CrossVector3 (SubtractVector3 v1 v0) (SubtractVector3 v2 v0)) v0).
Proof.
  intros H0 H1 H2. unfold FromPointsPlane.
  apply plane_through_point; [exact H0|].
  destruct v0, v1, v2.
  cbn [forallb coords3 v3x v3y v3z] in H0, H1, H2.
  repeat match goal with
         | H : (_ && _) = true |- _ =>
             apply andb_prop in H; destruct H as [? H]
         end.
  cbn [forallb coords3 CrossVector3 SubtractVector3 v3x v3y v3z].
  rewrite !andb_true_iff. repeat split; val_tac.
Qed.

Lemma FromPointsPlane_contains_first_witness :
  forallb is_float (coords3 point_p5) = true
  /\ forallb is_float (coords3 rt_point) = true
  /\ forallb is_float (coords3 point_m1) = true
  /\ DotPlaneCoordinate (FromPointsPlane point_p5 rt_point point_m1) point_p5
     = f0.
Proof.
  split; [reflexivity|]. split; [reflexivity|]. split; [reflexivity|].
  apply (FromPointsPlane_contains_first point_p5 rt_point point_m1);
    reflexivity.
Defined.

(** ** Further properties: colours *)

Lemma clamp_high (s : float) :
  negb ((if (s > f1)%f32 then f1 else s) > f1)%f32 = true.
Proof. destruct (s > f1)%f32 eqn:E; [reflexivity|rewrite E; reflexivity]. Qed.

Lemma clamp_low (s : float) :
  negb ((if (s < f0)%f32 then f0 else s) < f0)%f32 = true.
Proof. destruct (s < f0)%f32 eqn:E; [reflexivity|rewrite E; reflexivity]. Qed.

(** X20.  [AddColor] saturates: no channel of its result is greater than 1.
    [SubtractColor] saturates: no channel of its result is less than 0. *)
Theorem Color_saturation (c0 c1 : color_t) :
  forallb (fun x => negb (x > f1)%f32) (channels (AddColor c0 c1)) = true
  /\ forallb (fun x => negb (x < f0)%f32) (channels (SubtractColor c0 c1))
     = true.
Proof.
  unfold AddColor, SubtractColor.
  cbn [forallb channels col_r col_g col_b col_a].
  rewrite !clamp_high, !clamp_low. split; reflexivity.
Qed.

(** X21.  [AddColor] and [ModulateColor] are commutative, bit for bit. *)
Theorem Color_comm (c0 c1 : color_t) :
  AddColor c0 c1 = AddColor c1 c0
  /\ ModulateColor c0 c1 = ModulateColor c1 c0.
Proof.
  unfold AddColor, ModulateColor. cbn [col_r col_g col_b col_a].
  rewrite (fadd_comm c1.(col_r)), (fadd_comm c1.(col_g)),
    (fadd_comm c1.(col_b)), (fadd_comm c1.(col_a)).
  rewrite (fmul_comm c1.(col_r)), (fmul_comm c1.(col_g)),
    (fmul_comm c1.(col_b)), (fmul_comm c1.(col_a)).
  split; reflexivity.
Qed.

(** ** Further properties: rectangles *)

(** Comparisons of [long]s as propositions. *)
Ltac cmp_tac :=
  repeat match goal with
         | |- context [?a >? ?b] => rewrite (Z.gtb_ltb a b)
         | H : context [?a >? ?b] |- _ => rewrite (Z.gtb_ltb a b) in H
         end;
  repeat match goal with
         | |- context [?a <? ?b] => destruct (Z.ltb_spec a b)
         | H : context [?a <? ?b] |- _ => destruct (Z.ltb_spec a b)
         | |- context [?a <=? ?b] => destruct (Z.leb_spec a b)
         | H : context [?a <=? ?b] |- _ => destruct (Z.leb_spec a b)
         end;
  cbn [andb orb negb] in *.

Lemma if_bool (c : bool) : (if c then true else false) = c.
Proof. destruct c; reflexivity. Qed.

Lemma min_if (a b : Z) : (if a <? b then a else b) = Z.min a b.
Proof. destruct (Z.ltb_spec a b); lia. Qed.

Lemma max_if (a b : Z) : (if a >? b then a else b) = Z.max a b.
Proof. rewrite Z.gtb_ltb. destruct (Z.ltb_spec b a); lia. Qed.

Lemma ContainsRectangleLT_spec (rect : rect_t) (x y : Z) :
  ContainsRectangleLT rect x y = true
  <-> rect.(rect_l) <= x < rect.(rect_r)
      /\ rect.(rect_t_) <= y < rect.(rect_b).
Proof.
  unfold ContainsRectangleLT.
  rewrite if_bool, !andb_true_iff, !Z.leb_le, !Z.ltb_lt. tauto.
Qed.

Lemma IntersectsRectangleLT_spec (r0 r1 : rect_t) :
  IntersectsRectangleLT r0 r1 = true
  <-> Z.max r0.(rect_l) r1.(rect_l) < Z.min r0.(rect_r) r1.(rect_r)
      /\ Z.max r0.(rect_t_) r1.(rect_t_) < Z.min r0.(rect_b) r1.(rect_b).
Proof.
  unfold IntersectsRectangleLT. cbv zeta.
  rewrite if_bool, !min_if, !max_if, andb_true_iff, !Z.gtb_ltb, !Z.ltb_lt.
  tauto.
Qed.

(** X22.  Two [(l, t, r, b)] rectangles intersect exactly when some point is
    contained in both. *)
Theorem IntersectsRectangleLT_common_point (r0 r1 : rect_t) :
  IntersectsRectangleLT r0 r1 = true
  <-> exists x y, ContainsRectangleLT r0 x y = true
                  /\ ContainsRectangleLT r1 x y = true.
Proof.
  rewrite IntersectsRectangleLT_spec. split.
  - intros H.
    exists (Z.max r0.(rect_l) r1.(rect_l)),
           (Z.max r0.(rect_t_) r1.(rect_t_)).
    rewrite !ContainsRectangleLT_spec. lia.
  - intros [x [y [H0 H1]]].
    rewrite ContainsRectangleLT_spec in H0, H1. lia.
Qed.

Lemma IntersectsRectangleLT_common_point_witness :
  ContainsRectangleLT (RectangleLT 0 0 10 10) 7 7 = true
  /\ ContainsRectangleLT (RectangleLT 5 5 15 15) 7 7 = true
  /\ IntersectsRectangleLT (RectangleLT 0 0 10 10) (RectangleLT 5 5 15 15)
     = true.
Proof.
  split; [reflexivity|]. split; [reflexivity|].
  apply (proj2 (IntersectsRectangleLT_common_point
                  (RectangleLT 0 0 10 10) (RectangleLT 5 5 15 15))).
  exists 7, 7. split; reflexivity.
Defined.

(** X23.  A point that [OutsideRectangleLT] reports outside is not
    contained.  The two tests are not complementary: the points that are
    neither contained nor outside are those of the right and bottom
    edges. *)
Theorem OutsideRectangleLT_ContainsRectangleLT (rect : rect_t) (x y : Z) :
  (OutsideRectangleLT rect x y = true ->
   ContainsRectangleLT rect x y = false)
  /\ (ContainsRectangleLT rect x y = false
      /\ OutsideRectangleLT rect x y = false
      <-> (rect.(rect_l) <= x <= rect.(rect_r)
           /\ rect.(rect_t_) <= y <= rect.(rect_b))
          /\ (x = rect.(rect_r) \/ y = rect.(rect_b))).
Proof.
  destruct rect as [l t r b].
  unfold OutsideRectangleLT, ContainsRectangleLT.
  cbn [rect_l rect_t_ rect_r rect_b].
  split; [|split].
  - intros H. cmp_tac; try discriminate; reflexivity || lia.
  - intros [H0 H1]. cmp_tac; try discriminate; lia.
  - intros H. cmp_tac; split; reflexivity || lia.
Qed.

Lemma OutsideRectangleLT_ContainsRectangleLT_witness :
  OutsideRectangleLT (RectangleLT 0 0 10 10) 11 5 = true
  /\ ContainsRectangleLT (RectangleLT 0 0 10 10) 11 5 = false.
Proof.
  split; [reflexivity|].
  apply (proj1 (OutsideRectangleLT_ContainsRectangleLT
                  (RectangleLT 0 0 10 10) 11 5)).
  reflexivity.
Defined.

Section LongFacts.

Variable long_bits : Z.
Hypothesis long_bits_pos : 0 < long_bits.

Lemma long_wrap_id (z : Z) : in_long long_bits z -> long_wrap long_bits z = z.
Proof.
  unfold in_long, long_wrap. intros H.
  assert (E : 2 ^ long_bits = 2 * 2 ^ (long_bits - 1)).
  { rewrite <- Z.pow_succ_r by lia. f_equal. lia. }
  rewrite Z.mod_small by lia. lia.
Qed.

(** X24.  As long as [x + w] and [y + h] do not overflow, the
    [(x, y, w, h)] functions agree with the [(l, t, r, b)] functions on the
    rectangle [(x, y, x + w, y + h)]. *)
Theorem RectangleXY_as_LT (r0 r1 : rect_t) (x y : Z) :
  in_long long_bits (rect_x r0 + rect_w r0) ->
  in_long long_bits (rect_y r0 + rect_h r0) ->
  in_long long_bits (rect_x r1 + rect_w r1) ->
  in_long long_bits (rect_y r1 + rect_h r1) ->
  ContainsRectangleXY long_bits r0 x y
  = ContainsRectangleLT (rect_to_LT r0) x y
  /\ OutsideRectangleXY long_bits r0 x y
     = OutsideRectangleLT (rect_to_LT r0) x y
  /\ IntersectsRectangleXY long_bits r0 r1
     = IntersectsRectangleLT (rect_to_LT r0) (rect_to_LT r1).
Proof.
  intros H0 H1 H2 H3.
  unfold ContainsRectangleXY, OutsideRectangleXY, IntersectsRectangleXY,
    long_add.
  rewrite !long_wrap_id by assumption.
  repeat split.
Qed.

End LongFacts.

Lemma RectangleXY_as_LT_witness :
  let r0 := RectangleXY 0 0 10 10 in
  let r1 := RectangleXY 5 5 10 10 in
  in_long 32 (rect_x r0 + rect_w r0)
  /\ in_long 32 (rect_y r0 + rect_h r0)
  /\ in_long 32 (rect_x r1 + rect_w r1)
  /\ in_long 32 (rect_y r1 + rect_h r1)
  /\ IntersectsRectangleXY 32 r0 r1
     = IntersectsRectangleLT (rect_to_LT r0) (rect_to_LT r1).
Proof.
  intros r0 r1.
  assert (H0 : in_long 32 (rect_x r0 + rect_w r0))
    by (unfold in_long; cbn; lia).
  assert (H1 : in_long 32 (rect_y r0 + rect_h r0))
    by (unfold in_long; cbn; lia).
  assert (H2 : in_long 32 (rect_x r1 + rect_w r1))
    by (unfold in_long; cbn; lia).
  assert (H3 : in_long 32 (rect_y r1 + rect_h r1))
    by (unfold in_long; cbn; lia).
  split; [exact H0|]. split; [exact H1|]. split; [exact H2|].
  split; [exact H3|].
  apply (RectangleXY_as_LT 32 ltac:(lia) r0 r1 0 0 H0 H1 H2 H3).
Defined.

